(** * ITG-3200 gyroscope driver (uCLibraries, [Common/ITG3200.c], [ITG3200.h])

    A shallow embedding of the register-level driver: the constants of the
    header, a register-file model of the two-wire bus, the bit-field
    accessor the driver calls, and every function of [ITG3200.c] as a
    state-passing function.  The theorems at the end state the properties of
    the driver's specification. *)

From Stdlib Require Import ZArith List Bool Lia.
From Stdlib Require Import Strings.Byte.
Import ListNotations.
Local Open Scope Z_scope.

(** * C data: [unsigned char] and [int] *)

(** An [unsigned char] in memory is a [byte]; arithmetic on it is done on
    its value in [Z], and storing a [Z] keeps the low eight bits. *)
Definition Z_of_uchar (b : byte) : Z := Z.of_N (Byte.to_N b).

Definition uchar_of_Z (z : Z) : byte :=
  match Byte.of_N (Z.to_N (z mod 256)) with
  | Some b => b
  | None => x00
  end.

(** A signed integer of [w] bits, two's complement: the value of the low
    [w] bits of [z], the top one carrying negative weight. *)
Definition sint (w z : Z) : Z :=
  let m := z mod 2 ^ w in
  if m <? 2 ^ (w - 1) then m else m - 2 ^ w.

(** Modelled from the spec: the width of the target's [int], whose
    declaration belongs to the compiler and not to the sources.  The
    sources call an [int] a "16-bit signed integer container" and its value
    a "reading in 16-bit 2's complement format", which is the [int] of the
    8- and 16-bit microcontrollers the library is written for. *)
Definition INT_BITS : Z := 16.

(** [a << n] on an [int] of [w] bits: a result that does not fit wraps
    around, as the compilers of these targets make it. *)
Definition int_shl (w a n : Z) : Z := sint w (Z.shiftl a n).

(** [a | b] on [int]. *)
Definition int_or (a b : Z) : Z := Z.lor a b.

(** * Constants of [ITG3200.h] *)

Definition ITG3200_ADDRESS_WRITE : Z := 0xD0.
Definition ITG3200_ADDRESS_READ : Z := 0xD1.

Definition ITG3200_RA_WHO_AM_I : Z := 0x00.
Definition ITG3200_RA_SMPLRT_DIV : Z := 0x15.
Definition ITG3200_RA_DLPF_FS : Z := 0x16.
Definition ITG3200_RA_INT_CFG : Z := 0x17.
Definition ITG3200_RA_INT_STATUS : Z := 0x1A.
Definition ITG3200_RA_TEMP_OUT_H : Z := 0x1B.
Definition ITG3200_RA_TEMP_OUT_L : Z := 0x1C.
Definition ITG3200_RA_GYRO_XOUT_H : Z := 0x1D.
Definition ITG3200_RA_GYRO_XOUT_L : Z := 0x1E.
Definition ITG3200_RA_GYRO_YOUT_H : Z := 0x1F.
Definition ITG3200_RA_GYRO_YOUT_L : Z := 0x20.
Definition ITG3200_RA_GYRO_ZOUT_H : Z := 0x21.
Definition ITG3200_RA_GYRO_ZOUT_L : Z := 0x22.
Definition ITG3200_RA_PWR_MGM : Z := 0x3E.

Definition ITG3200_DEVID_BIT : Z := 6.
Definition ITG3200_DEVID_LENGTH : Z := 6.

Definition ITG3200_DF_FS_SEL_BIT : Z := 4.
Definition ITG3200_DF_FS_SEL_LENGTH : Z := 2.
Definition ITG3200_DF_DLPF_CFG_BIT : Z := 2.
Definition ITG3200_DF_DLPF_CFG_LENGTH : Z := 3.

Definition ITG3200_FULLSCALE_2000 : Z := 0x03.

Definition ITG3200_DLPF_BW_256 : Z := 0x00.
Definition ITG3200_DLPF_BW_188 : Z := 0x01.
Definition ITG3200_DLPF_BW_98 : Z := 0x02.
Definition ITG3200_DLPF_BW_42 : Z := 0x03.
Definition ITG3200_DLPF_BW_20 : Z := 0x04.
Definition ITG3200_DLPF_BW_10 : Z := 0x05.
Definition ITG3200_DLPF_BW_5 : Z := 0x06.

Definition ITG3200_INTCFG_ACTL_BIT : Z := 7.
Definition ITG3200_INTCFG_OPEN_BIT : Z := 6.
Definition ITG3200_INTCFG_LATCH_INT_EN_BIT : Z := 5.
Definition ITG3200_INTCFG_INT_ANYRD_2CLEAR_BIT : Z := 4.
Definition ITG3200_INTCFG_ITG_RDY_EN_BIT : Z := 2.
Definition ITG3200_INTCFG_RAW_RDY_EN_BIT : Z := 0.

Definition ITG3200_INTMODE_ACTIVEHIGH : Z := 0x00.
Definition ITG3200_INTMODE_ACTIVELOW : Z := 0x01.

Definition ITG3200_INTDRV_PUSHPULL : Z := 0x00.
Definition ITG3200_INTDRV_OPENDRAIN : Z := 0x01.

Definition ITG3200_INTLATCH_50USPULSE : Z := 0x00.
Definition ITG3200_INTLATCH_WAITCLEAR : Z := 0x01.

Definition ITG3200_INTCLEAR_STATUSREAD : Z := 0x00.
Definition ITG3200_INTCLEAR_ANYREAD : Z := 0x01.

Definition ITG3200_INTSTAT_ITG_RDY_BIT : Z := 2.
Definition ITG3200_INTSTAT_RAW_DATA_READY_BIT : Z := 0.

Definition ITG3200_PWR_H_RESET_BIT : Z := 7.
Definition ITG3200_PWR_SLEEP_BIT : Z := 6.
Definition ITG3200_PWR_STBY_XG_BIT : Z := 5.
Definition ITG3200_PWR_STBY_YG_BIT : Z := 4.
Definition ITG3200_PWR_STBY_ZG_BIT : Z := 3.
Definition ITG3200_PWR_CLK_SEL_BIT : Z := 2.
Definition ITG3200_PWR_CLK_SEL_LENGTH : Z := 3.

Definition ITG3200_CLOCK_INTERNAL : Z := 0x00.
Definition ITG3200_CLOCK_PLL_XGYRO : Z := 0x01.
Definition ITG3200_CLOCK_PLL_YGYRO : Z := 0x02.
Definition ITG3200_CLOCK_PLL_ZGYRO : Z := 0x03.
Definition ITG3200_CLOCK_PLL_EXT32K : Z := 0x04.
Definition ITG3200_CLOCK_PLL_EXT19M : Z := 0x05.

(** * The bus *)

(** The three kinds of transaction the transport offers. *)
Inductive transaction : Type :=
| TxWriteByte (reg : Z) (v : byte)
| TxReadByte (reg : Z)
| TxReadBytes (reg : Z) (count : nat).

(** One entry of the bus log: what was attempted and whether it went through. *)
Record event : Type := mkEvent { tx : transaction; ok : bool }.

(** The device behind the bus: its register file, the outcome of the
    transactions to come ([true]: that transaction fails; none left: they
    succeed), and everything attempted so far, oldest first. *)
Record Bus : Type := mkBus {
  regs : Z -> byte;
  faults : list bool;
  log : list event
}.

Inductive Result (A : Type) : Type :=
| Ok (a : A)
| BusTransactionFailure.
Arguments Ok {A} a.
Arguments BusTransactionFailure {A}.

(** Accessor code runs on the bus and may fail. *)
Definition Acc (A : Type) : Type := Bus -> Result A * Bus.

Definition acc_ret {A} (a : A) : Acc A := fun b => (Ok a, b).

Definition acc_bind {A B} (m : Acc A) (k : A -> Acc B) : Acc B :=
  fun b =>
    match m b with
    | (Ok a, b1) => k a b1
    | (BusTransactionFailure, b1) => (BusTransactionFailure, b1)
    end.

Notation "x <- m ;; k" := (acc_bind m (fun x => k))
  (at level 61, m at next level, right associativity).

Definition set_reg (reg : Z) (v : byte) (rf : Z -> byte) : Z -> byte :=
  fun r => if r =? reg then v else rf r.

(** A transaction is attempted: it is logged with its outcome, and the
    outcome is taken off the front of [faults]. *)
Definition attempt (t : transaction) (b : Bus) : bool * Bus :=
  match faults b with
  | [] => (true, mkBus (regs b) [] (log b ++ [mkEvent t true]))
  | f :: fs => (negb f, mkBus (regs b) fs (log b ++ [mkEvent t (negb f)]))
  end.

Module Transport.

(** Modelled from the spec: the bus transport is outside the sources; this
    is its "writeByte" over a register file, giving a result or a bus error.
    A failed write changes no register. *)
Definition writeByte (reg : Z) (v : byte) : Acc unit :=
  fun b =>
    match attempt (TxWriteByte reg v) b with
    | (true, b1) => (Ok tt, mkBus (set_reg reg v (regs b1)) (faults b1) (log b1))
    | (false, b1) => (BusTransactionFailure, b1)
    end.

(** Modelled from the spec: the transport's "readByte", giving the byte of
    the register or a bus error. *)
Definition readByte (reg : Z) : Acc byte :=
  fun b =>
    match attempt (TxReadByte reg) b with
    | (true, b1) => (Ok (regs b1 reg), b1)
    | (false, b1) => (BusTransactionFailure, b1)
    end.

(** Modelled from the spec: the transport's "readBytes", one transaction
    giving the bytes of [count] consecutive registers from [reg] on, in
    register order, or a bus error and no byte. *)
Definition readBytes (reg : Z) (count : nat) : Acc (list byte) :=
  fun b =>
    match attempt (TxReadBytes reg count) b with
    | (true, b1) =>
        (Ok (map (fun i => regs b1 (reg + Z.of_nat i)) (seq 0 count)), b1)
    | (false, b1) => (BusTransactionFailure, b1)
    end.

End Transport.

(** * The bit-field accessor *)

(** Lowest bit of the field whose most significant bit is [bitStart]. *)
Definition field_shift (bitStart length : Z) : Z := bitStart - length + 1.

(** The bits [bitStart - length + 1 .. bitStart]. *)
Definition field_mask (bitStart length : Z) : Z :=
  Z.shiftl (Z.ones length) (field_shift bitStart length).

(** The [I2CDevice...] functions that [ITG3200.c] calls are declared
    outside the sources (the header includes [imu/IMUDevice.h]); each is
    modelled on the specification's description of the bit-field accessor.
    They take no device address: the device is bound below them. *)

(** Modelled from the spec: the accessor's single-byte read, the
    transport's "readByte"; a failure of the transaction is the result. *)
Definition I2CDeviceReadByte (reg : Z) : Acc Z :=
  b <- Transport.readByte reg ;;
  acc_ret (Z_of_uchar b).

(** Modelled from the spec: the accessor's single-byte write, the
    transport's "writeByte" of the value as an [unsigned char]. *)
Definition I2CDeviceWriteByte (reg : Z) (data : Z) : Acc unit :=
  Transport.writeByte reg (uchar_of_Z data).

(** Modelled from the spec: "readBit" issues a single-byte read of the
    register and returns whether the bit at the position (0 the least
    significant) is set. *)
Definition I2CDeviceReadBit (reg bit : Z) : Acc bool :=
  b <- I2CDeviceReadByte reg ;;
  acc_ret (Z.testbit b bit).

(** Modelled from the spec: "readBits" reads the byte, shifts it right and
    masks it to isolate [length] bits counted down from [bitStart], and
    returns the field right-aligned. *)
Definition I2CDeviceReadBits (reg bitStart length : Z) : Acc Z :=
  b <- I2CDeviceReadByte reg ;;
  acc_ret (Z.land (Z.shiftr b (field_shift bitStart length)) (Z.ones length)).

(** Modelled from the spec: "writeBit" reads the current byte, sets or
    clears the target bit, and writes the byte back; when the read fails
    no write is attempted. *)
Definition I2CDeviceWriteBit (reg bit : Z) (value : bool) : Acc unit :=
  b <- I2CDeviceReadByte reg ;;
  I2CDeviceWriteByte reg
    (if value then Z.lor b (Z.shiftl 1 bit)
     else Z.land b (Z.lnot (Z.shiftl 1 bit))).

(** Modelled from the spec: "writeBits" reads the current byte, computes
    the mask of the field's bit span, clears those bits, ors in the value
    shifted into position and masked to the field, and writes the byte
    back; when the read fails no write is attempted. *)
Definition I2CDeviceWriteBits (reg bitStart length data : Z) : Acc unit :=
  b <- I2CDeviceReadByte reg ;;
  let mask := field_mask bitStart length in
  let data' := Z.land (Z.shiftl data (field_shift bitStart length)) mask in
  I2CDeviceWriteByte reg (Z.lor (Z.land b (Z.lnot mask)) data').

(** The first bytes of a buffer overwritten. *)
Definition store_bytes (bytes buffer : list byte) : list byte :=
  bytes ++ skipn (length bytes) buffer.

(** Modelled from the spec: "readBytes" burst-reads [count] consecutive
    registers into the caller's buffer in one transaction; there is no
    partial success: a burst that went through has overwritten the first
    [count] bytes, one that failed has left the buffer as it was. *)
Definition I2CDeviceReadBytes (reg : Z) (count : nat) (buffer : list byte)
  : Bus -> (Result unit * list byte) * Bus :=
  fun b =>
    match Transport.readBytes reg count b with
    | (Ok bytes, b1) => ((Ok tt, store_bytes bytes buffer), b1)
    | (BusTransactionFailure, b1) => ((BusTransactionFailure, buffer), b1)
    end.

(** * The driver, [ITG3200.c] *)

(** The driver keeps one piece of state of its own, the scratch buffer
    [unsigned char ITG3200Buffer[6]]; the rest lives in the device. *)
Record State : Type := mkState {
  bus : Bus;
  ITG3200Buffer : list byte
}.

Definition Driver (A : Type) : Type := State -> A * State.

(** An accessor call made by the driver; its result is the call's value.
    A getter written [return I2CDevice...(...)] is embedded with the
    accessor's result as it is; its C return type, [unsigned char] or
    [boolean], has no failure value, and what its caller receives is
    [as_returned] of that result. *)
Definition on_bus {A} (m : Acc A) : Driver (Result A) :=
  fun st => let (r, b1) := m (bus st) in (r, mkState b1 (ITG3200Buffer st)).

(** An accessor call used as a statement of a [void] function: whatever it
    returns is dropped. *)
Definition statement {A} (m : Driver A) : Driver unit :=
  fun st => (tt, snd (m st)).

(** [I2CDeviceReadBytes(reg, count, ITG3200Buffer);] *)
Definition burst_into_buffer (reg : Z) (count : nat) : Driver (Result unit) :=
  fun st =>
    match I2CDeviceReadBytes reg count (ITG3200Buffer st) (bus st) with
    | ((r, buffer), b1) => (r, mkState b1 buffer)
    end.

(** [(int) ITG3200Buffer[i]] *)
Definition buffer_at (st : State) (i : nat) : Z :=
  Z_of_uchar (nth i (ITG3200Buffer st) x00).

Definition ITG3200GetDeviceID : Driver (Result Z) :=
  on_bus (I2CDeviceReadBits ITG3200_RA_WHO_AM_I
            ITG3200_DEVID_BIT ITG3200_DEVID_LENGTH).

Definition ITG3200SetDeviceID (id : Z) : Driver unit :=
  statement (on_bus (I2CDeviceWriteBits ITG3200_RA_WHO_AM_I
                       ITG3200_DEVID_BIT ITG3200_DEVID_LENGTH id)).

Definition ITG3200GetRate : Driver (Result Z) :=
  on_bus (I2CDeviceReadByte ITG3200_RA_SMPLRT_DIV).

Definition ITG3200SetRate (rate : Z) : Driver unit :=
  statement (on_bus (I2CDeviceWriteByte ITG3200_RA_SMPLRT_DIV rate)).

Definition ITG3200GetFullScaleRange : Driver (Result Z) :=
  on_bus (I2CDeviceReadBits ITG3200_RA_DLPF_FS
            ITG3200_DF_FS_SEL_BIT ITG3200_DF_FS_SEL_LENGTH).

Definition ITG3200SetFullScaleRange (range : Z) : Driver unit :=
  statement (on_bus (I2CDeviceWriteBits ITG3200_RA_DLPF_FS
                       ITG3200_DF_FS_SEL_BIT ITG3200_DF_FS_SEL_LENGTH range)).

Definition ITG3200GetDLPFBandwidth : Driver (Result Z) :=
  on_bus (I2CDeviceReadBits ITG3200_RA_DLPF_FS
            ITG3200_DF_DLPF_CFG_BIT ITG3200_DF_DLPF_CFG_LENGTH).

Definition ITG3200SetDLPFBandwidth (bandwidth : Z) : Driver unit :=
  statement (on_bus (I2CDeviceWriteBits ITG3200_RA_DLPF_FS
                       ITG3200_DF_DLPF_CFG_BIT ITG3200_DF_DLPF_CFG_LENGTH
                       bandwidth)).

Definition ITG3200GetInterruptMode : Driver (Result bool) :=
  on_bus (I2CDeviceReadBit ITG3200_RA_INT_CFG ITG3200_INTCFG_ACTL_BIT).

Definition ITG3200SetInterruptMode (mode : bool) : Driver unit :=
  statement (on_bus (I2CDeviceWriteBit ITG3200_RA_INT_CFG
                       ITG3200_INTCFG_ACTL_BIT mode)).

Definition ITG3200getInterruptDrive : Driver (Result bool) :=
  on_bus (I2CDeviceReadBit ITG3200_RA_INT_CFG ITG3200_INTCFG_OPEN_BIT).

Definition ITG3200SetInterruptDrive (drive : bool) : Driver unit :=
  statement (on_bus (I2CDeviceWriteBit ITG3200_RA_INT_CFG
                       ITG3200_INTCFG_OPEN_BIT drive)).

Definition ITG3200GetInterruptLatch : Driver (Result bool) :=
  on_bus (I2CDeviceReadBit ITG3200_RA_INT_CFG ITG3200_INTCFG_LATCH_INT_EN_BIT).

Definition ITG3200SetInterruptLatch (latch : bool) : Driver unit :=
  statement (on_bus (I2CDeviceWriteBit ITG3200_RA_INT_CFG
                       ITG3200_INTCFG_LATCH_INT_EN_BIT latch)).

Definition ITG3200GetInterruptLatchClear : Driver (Result bool) :=
  on_bus (I2CDeviceReadBit ITG3200_RA_INT_CFG
            ITG3200_INTCFG_INT_ANYRD_2CLEAR_BIT).

Definition ITG3200SetInterruptLatchClear (clear : bool) : Driver unit :=
  statement (on_bus (I2CDeviceWriteBit ITG3200_RA_INT_CFG
                       ITG3200_INTCFG_INT_ANYRD_2CLEAR_BIT clear)).

Definition ITG3200GetIntDeviceReadyEnabled : Driver (Result bool) :=
  on_bus (I2CDeviceReadBit ITG3200_RA_INT_CFG ITG3200_INTCFG_ITG_RDY_EN_BIT).

Definition ITG3200SetIntDeviceReadyEnabled (enabled : bool) : Driver unit :=
  statement (on_bus (I2CDeviceWriteBit ITG3200_RA_INT_CFG
                       ITG3200_INTCFG_ITG_RDY_EN_BIT enabled)).

Definition ITG3200GetIntDataReadyEnabled : Driver (Result bool) :=
  on_bus (I2CDeviceReadBit ITG3200_RA_INT_CFG ITG3200_INTCFG_RAW_RDY_EN_BIT).

Definition ITG3200SetIntDataReadyEnabled (enabled : bool) : Driver unit :=
  statement (on_bus (I2CDeviceWriteBit ITG3200_RA_INT_CFG
                       ITG3200_INTCFG_RAW_RDY_EN_BIT enabled)).

Definition ITG3200GetIntDeviceReadyStatus : Driver (Result bool) :=
  on_bus (I2CDeviceReadBit ITG3200_RA_INT_STATUS ITG3200_INTSTAT_ITG_RDY_BIT).

Definition ITG3200GetIntDataReadyStatus : Driver (Result bool) :=
  on_bus (I2CDeviceReadBit ITG3200_RA_INT_STATUS
            ITG3200_INTSTAT_RAW_DATA_READY_BIT).

Definition ITG3200GetTemperature : Driver Z :=
  fun st =>
    let (_, st1) := burst_into_buffer ITG3200_RA_TEMP_OUT_H 2 st in
    (int_or (int_shl INT_BITS (buffer_at st1 0) 8) (buffer_at st1 1), st1).

(** The three [int*] out-parameters are returned as a triple. *)
Definition ITG3200GetRotation : Driver (Z * Z * Z) :=
  fun st =>
    let (_, st1) := burst_into_buffer ITG3200_RA_GYRO_XOUT_H 6 st in
    let x := int_or (int_shl INT_BITS (buffer_at st1 0) 8) (buffer_at st1 1) in
    let y := int_or (int_shl INT_BITS (buffer_at st1 2) 8) (buffer_at st1 3) in
    let z := int_or (int_shl INT_BITS (buffer_at st1 4) 8) (buffer_at st1 5) in
    ((x, y, z), st1).

Definition ITG3200GetRotationX : Driver Z :=
  fun st =>
    let (_, st1) := burst_into_buffer ITG3200_RA_GYRO_XOUT_H 2 st in
    (int_or (int_shl INT_BITS (buffer_at st1 0) 8) (buffer_at st1 1), st1).

Definition ITG3200GetRotationY : Driver Z :=
  fun st =>
    let (_, st1) := burst_into_buffer ITG3200_RA_GYRO_YOUT_H 2 st in
    (int_or (int_shl INT_BITS (buffer_at st1 0) 8) (buffer_at st1 1), st1).

Definition ITG3200GetRotationZ : Driver Z :=
  fun st =>
    let (_, st1) := burst_into_buffer ITG3200_RA_GYRO_ZOUT_H 2 st in
    (int_or (int_shl INT_BITS (buffer_at st1 0) 8) (buffer_at st1 1), st1).

Definition ITG3200Reset : Driver unit :=
  statement (on_bus (I2CDeviceWriteBit ITG3200_RA_PWR_MGM
                       ITG3200_PWR_H_RESET_BIT true)).

Definition ITG3200GetSleepEnabled : Driver (Result bool) :=
  on_bus (I2CDeviceReadBit ITG3200_RA_PWR_MGM ITG3200_PWR_SLEEP_BIT).

Definition ITG3200SetSleepEnabled (enabled : bool) : Driver unit :=
  statement (on_bus (I2CDeviceWriteBit ITG3200_RA_PWR_MGM
                       ITG3200_PWR_SLEEP_BIT enabled)).

Definition ITG3200GetStandbyXEnabled : Driver (Result bool) :=
  on_bus (I2CDeviceReadBit ITG3200_RA_PWR_MGM ITG3200_PWR_STBY_XG_BIT).

Definition ITG3200SetStandbyXEnabled (enabled : bool) : Driver unit :=
  statement (on_bus (I2CDeviceWriteBit ITG3200_RA_PWR_MGM
                       ITG3200_PWR_STBY_XG_BIT enabled)).

Definition ITG3200GetStandbyYEnabled : Driver (Result bool) :=
  on_bus (I2CDeviceReadBit ITG3200_RA_PWR_MGM ITG3200_PWR_STBY_YG_BIT).

Definition ITG3200SetStandbyYEnabled (enabled : bool) : Driver unit :=
  statement (on_bus (I2CDeviceWriteBit ITG3200_RA_PWR_MGM
                       ITG3200_PWR_STBY_YG_BIT enabled)).

Definition ITG3200GetStandbyZEnabled : Driver (Result bool) :=
  on_bus (I2CDeviceReadBit ITG3200_RA_PWR_MGM ITG3200_PWR_STBY_ZG_BIT).

Definition ITG3200SetStandbyZEnabled (enabled : bool) : Driver unit :=
  statement (on_bus (I2CDeviceWriteBit ITG3200_RA_PWR_MGM
                       ITG3200_PWR_STBY_ZG_BIT enabled)).

Definition ITG3200GetClockSource : Driver (Result Z) :=
  on_bus (I2CDeviceReadBits ITG3200_RA_PWR_MGM
            ITG3200_PWR_CLK_SEL_BIT ITG3200_PWR_CLK_SEL_LENGTH).

Definition ITG3200SetClockSource (source : Z) : Driver unit :=
  statement (on_bus (I2CDeviceWriteBits ITG3200_RA_PWR_MGM
                       ITG3200_PWR_CLK_SEL_BIT ITG3200_PWR_CLK_SEL_LENGTH
                       source)).

Definition ITG3200Initialize : Driver unit :=
  fun st =>
    let (_, st1) := ITG3200SetFullScaleRange ITG3200_FULLSCALE_2000 st in
    ITG3200SetClockSource ITG3200_CLOCK_PLL_XGYRO st1.


(** * The driver's operations, by kind *)

(** The getters that return a field of a register, or a whole register. *)
Inductive field_getter : Type :=
| DeviceID | Rate | FullScaleRange | DLPFBandwidth | ClockSource.

Definition get_field (f : field_getter) : Driver (Result Z) :=
  match f with
  | DeviceID => ITG3200GetDeviceID
  | Rate => ITG3200GetRate
  | FullScaleRange => ITG3200GetFullScaleRange
  | DLPFBandwidth => ITG3200GetDLPFBandwidth
  | ClockSource => ITG3200GetClockSource
  end.

(** The getters that return one bit. *)
Inductive flag_getter : Type :=
| InterruptMode | InterruptDrive | InterruptLatch | InterruptLatchClear
| IntDeviceReadyEnabled | IntDataReadyEnabled
| IntDeviceReadyStatus | IntDataReadyStatus
| SleepEnabled | StandbyXEnabled | StandbyYEnabled | StandbyZEnabled.

Definition get_flag (f : flag_getter) : Driver (Result bool) :=
  match f with
  | InterruptMode => ITG3200GetInterruptMode
  | InterruptDrive => ITG3200getInterruptDrive
  | InterruptLatch => ITG3200GetInterruptLatch
  | InterruptLatchClear => ITG3200GetInterruptLatchClear
  | IntDeviceReadyEnabled => ITG3200GetIntDeviceReadyEnabled
  | IntDataReadyEnabled => ITG3200GetIntDataReadyEnabled
  | IntDeviceReadyStatus => ITG3200GetIntDeviceReadyStatus
  | IntDataReadyStatus => ITG3200GetIntDataReadyStatus
  | SleepEnabled => ITG3200GetSleepEnabled
  | StandbyXEnabled => ITG3200GetStandbyXEnabled
  | StandbyYEnabled => ITG3200GetStandbyYEnabled
  | StandbyZEnabled => ITG3200GetStandbyZEnabled
  end.

(** The reads of one two-byte sample, with the register the pair starts at. *)
Inductive sample_getter : Type :=
| Temperature | RotationX | RotationY | RotationZ.

Definition get_sample (g : sample_getter) : Driver Z :=
  match g with
  | Temperature => ITG3200GetTemperature
  | RotationX => ITG3200GetRotationX
  | RotationY => ITG3200GetRotationY
  | RotationZ => ITG3200GetRotationZ
  end.

Definition sample_register (g : sample_getter) : Z :=
  match g with
  | Temperature => ITG3200_RA_TEMP_OUT_H
  | RotationX => ITG3200_RA_GYRO_XOUT_H
  | RotationY => ITG3200_RA_GYRO_YOUT_H
  | RotationZ => ITG3200_RA_GYRO_ZOUT_H
  end.

Inductive getter : Type :=
| GField (f : field_getter)
| GFlag (f : flag_getter)
| GSample (g : sample_getter)
| GRotation.

(** The state a getter leaves. *)
Definition after_getter (g : getter) (st : State) : State :=
  match g with
  | GField f => snd (get_field f st)
  | GFlag f => snd (get_flag f st)
  | GSample s => snd (get_sample s st)
  | GRotation => snd (ITG3200GetRotation st)
  end.

(** The [void] operations on one register, with their argument. *)
Inductive setter : Type :=
| SetDeviceID (id : Z)
| SetRate (rate : Z)
| SetFullScaleRange (range : Z)
| SetDLPFBandwidth (bandwidth : Z)
| SetInterruptMode (mode : bool)
| SetInterruptDrive (drive : bool)
| SetInterruptLatch (latch : bool)
| SetInterruptLatchClear (clear : bool)
| SetIntDeviceReadyEnabled (enabled : bool)
| SetIntDataReadyEnabled (enabled : bool)
| TriggerReset
| SetSleepEnabled (enabled : bool)
| SetStandbyXEnabled (enabled : bool)
| SetStandbyYEnabled (enabled : bool)
| SetStandbyZEnabled (enabled : bool)
| SetClockSource (source : Z).

Definition run_setter (s : setter) : Driver unit :=
  match s with
  | SetDeviceID id => ITG3200SetDeviceID id
  | SetRate rate => ITG3200SetRate rate
  | SetFullScaleRange range => ITG3200SetFullScaleRange range
  | SetDLPFBandwidth bandwidth => ITG3200SetDLPFBandwidth bandwidth
  | SetInterruptMode mode => ITG3200SetInterruptMode mode
  | SetInterruptDrive drive => ITG3200SetInterruptDrive drive
  | SetInterruptLatch latch => ITG3200SetInterruptLatch latch
  | SetInterruptLatchClear clear => ITG3200SetInterruptLatchClear clear
  | SetIntDeviceReadyEnabled enabled => ITG3200SetIntDeviceReadyEnabled enabled
  | SetIntDataReadyEnabled enabled => ITG3200SetIntDataReadyEnabled enabled
  | TriggerReset => ITG3200Reset
  | SetSleepEnabled enabled => ITG3200SetSleepEnabled enabled
  | SetStandbyXEnabled enabled => ITG3200SetStandbyXEnabled enabled
  | SetStandbyYEnabled enabled => ITG3200SetStandbyYEnabled enabled
  | SetStandbyZEnabled enabled => ITG3200SetStandbyZEnabled enabled
  | SetClockSource source => ITG3200SetClockSource source
  end.

(** Every setter but [ITG3200SetRate], which writes the whole register,
    reads the register before it writes it. *)
Definition read_modify_write (s : setter) : bool :=
  match s with
  | SetRate _ => false
  | _ => true
  end.

Inductive operation : Type :=
| OpGet (g : getter)
| OpSet (s : setter)
| OpInitialize.

Definition after_operation (o : operation) (st : State) : State :=
  match o with
  | OpGet g => after_getter g st
  | OpSet s => snd (run_setter s st)
  | OpInitialize => snd (ITG3200Initialize st)
  end.

(** The six single-bit flags of INT_CFG, each with its setter and getter. *)
Inductive int_flag : Type :=
| ACTL | OPEN | LATCH_INT_EN | INT_ANYRD_2CLEAR | ITG_RDY_EN | RAW_RDY_EN.

Definition int_flag_bit (f : int_flag) : Z :=
  match f with
  | ACTL => ITG3200_INTCFG_ACTL_BIT
  | OPEN => ITG3200_INTCFG_OPEN_BIT
  | LATCH_INT_EN => ITG3200_INTCFG_LATCH_INT_EN_BIT
  | INT_ANYRD_2CLEAR => ITG3200_INTCFG_INT_ANYRD_2CLEAR_BIT
  | ITG_RDY_EN => ITG3200_INTCFG_ITG_RDY_EN_BIT
  | RAW_RDY_EN => ITG3200_INTCFG_RAW_RDY_EN_BIT
  end.

Definition set_int_flag (f : int_flag) (value : bool) : Driver unit :=
  match f with
  | ACTL => ITG3200SetInterruptMode value
  | OPEN => ITG3200SetInterruptDrive value
  | LATCH_INT_EN => ITG3200SetInterruptLatch value
  | INT_ANYRD_2CLEAR => ITG3200SetInterruptLatchClear value
  | ITG_RDY_EN => ITG3200SetIntDeviceReadyEnabled value
  | RAW_RDY_EN => ITG3200SetIntDataReadyEnabled value
  end.

Definition get_int_flag (f : int_flag) : Driver (Result bool) :=
  match f with
  | ACTL => ITG3200GetInterruptMode
  | OPEN => ITG3200getInterruptDrive
  | LATCH_INT_EN => ITG3200GetInterruptLatch
  | INT_ANYRD_2CLEAR => ITG3200GetInterruptLatchClear
  | ITG_RDY_EN => ITG3200GetIntDeviceReadyEnabled
  | RAW_RDY_EN => ITG3200GetIntDataReadyEnabled
  end.

(** * The register map and the field descriptors *)

Definition register_map : list Z :=
  [ ITG3200_RA_WHO_AM_I; ITG3200_RA_SMPLRT_DIV; ITG3200_RA_DLPF_FS;
    ITG3200_RA_INT_CFG; ITG3200_RA_INT_STATUS;
    ITG3200_RA_TEMP_OUT_H; ITG3200_RA_TEMP_OUT_L;
    ITG3200_RA_GYRO_XOUT_H; ITG3200_RA_GYRO_XOUT_L;
    ITG3200_RA_GYRO_YOUT_H; ITG3200_RA_GYRO_YOUT_L;
    ITG3200_RA_GYRO_ZOUT_H; ITG3200_RA_GYRO_ZOUT_L;
    ITG3200_RA_PWR_MGM ].

(** The registers a transaction addresses. *)
Definition tx_registers (t : transaction) : list Z :=
  match t with
  | TxWriteByte reg _ => [reg]
  | TxReadByte reg => [reg]
  | TxReadBytes reg count => map (fun i => reg + Z.of_nat i) (seq 0 count)
  end.

Definition in_register_map (e : event) : Prop :=
  Forall (fun r => In r register_map) (tx_registers (tx e)).

(** A bit field as the driver passes it to the accessor: the register, the
    position of the field's most significant bit, the width. *)
Record descriptor : Type := mkDescriptor {
  d_reg : Z;
  d_bit : Z;
  d_width : Z
}.

Definition devid_field : descriptor :=
  mkDescriptor ITG3200_RA_WHO_AM_I ITG3200_DEVID_BIT ITG3200_DEVID_LENGTH.

(** Every field the header declares, under the register [ITG3200.c] uses
    it with; a [_BIT] constant without a [_LENGTH] is a field of one bit. *)
Definition descriptors : list descriptor :=
  [ devid_field;
    mkDescriptor ITG3200_RA_DLPF_FS ITG3200_DF_FS_SEL_BIT ITG3200_DF_FS_SEL_LENGTH;
    mkDescriptor ITG3200_RA_DLPF_FS ITG3200_DF_DLPF_CFG_BIT ITG3200_DF_DLPF_CFG_LENGTH;
    mkDescriptor ITG3200_RA_INT_CFG ITG3200_INTCFG_ACTL_BIT 1;
    mkDescriptor ITG3200_RA_INT_CFG ITG3200_INTCFG_OPEN_BIT 1;
    mkDescriptor ITG3200_RA_INT_CFG ITG3200_INTCFG_LATCH_INT_EN_BIT 1;
    mkDescriptor ITG3200_RA_INT_CFG ITG3200_INTCFG_INT_ANYRD_2CLEAR_BIT 1;
    mkDescriptor ITG3200_RA_INT_CFG ITG3200_INTCFG_ITG_RDY_EN_BIT 1;
    mkDescriptor ITG3200_RA_INT_CFG ITG3200_INTCFG_RAW_RDY_EN_BIT 1;
    mkDescriptor ITG3200_RA_INT_STATUS ITG3200_INTSTAT_ITG_RDY_BIT 1;
    mkDescriptor ITG3200_RA_INT_STATUS ITG3200_INTSTAT_RAW_DATA_READY_BIT 1;
    mkDescriptor ITG3200_RA_PWR_MGM ITG3200_PWR_H_RESET_BIT 1;
    mkDescriptor ITG3200_RA_PWR_MGM ITG3200_PWR_SLEEP_BIT 1;
    mkDescriptor ITG3200_RA_PWR_MGM ITG3200_PWR_STBY_XG_BIT 1;
    mkDescriptor ITG3200_RA_PWR_MGM ITG3200_PWR_STBY_YG_BIT 1;
    mkDescriptor ITG3200_RA_PWR_MGM ITG3200_PWR_STBY_ZG_BIT 1;
    mkDescriptor ITG3200_RA_PWR_MGM ITG3200_PWR_CLK_SEL_BIT ITG3200_PWR_CLK_SEL_LENGTH ].

(** A field descriptor the byte can hold: [length] bits ending at bit
    [bitStart], counted down, inside bits 7..0. *)
Definition field_ok (bitStart length : Z) : Prop :=
  0 < length /\ length <= bitStart + 1 /\ bitStart <= 7.

(** The invariant as the specification words it. *)
Definition position_plus_width_le_8 (d : descriptor) : Prop :=
  d_bit d + d_width d <= 8.

(** Two fields share no bit: they lie in different registers, or one ends
    below the lowest bit of the other. *)
Definition fields_disjoint (d e : descriptor) : Prop :=
  d_reg d <> d_reg e
  \/ d_bit d < field_shift (d_bit e) (d_width e)
  \/ d_bit e < field_shift (d_bit d) (d_width d).

(** * Vocabulary of the statements *)

Definition is_read (t : transaction) : bool :=
  match t with
  | TxWriteByte _ _ => false
  | TxReadByte _ => true
  | TxReadBytes _ _ => true
  end.

Definition ev_ok (t : transaction) : event := mkEvent t true.
Definition ev_failed (t : transaction) : event := mkEvent t false.

(** Whether the next transaction on the bus goes through. *)
Definition next_ok (b : Bus) : bool :=
  match faults b with
  | [] => true
  | f :: _ => negb f
  end.

(** What an operation added to the bus log. *)
Definition added {A} (op : Driver A) (st : State) : list event :=
  skipn (length (log (bus st))) (log (bus (snd (op st)))).

(** An operation surfaces bus failures as an explicit error result when its
    results divide into errors and values, the errors being returned
    exactly by the runs in which a transaction failed. *)
Definition surfaces_failure {A} (op : Driver A) : Prop :=
  exists is_error : A -> bool,
    forall st, is_error (fst (op st)) = existsb (fun e => negb (ok e)) (added op st).

(** The byte [I2CDeviceWriteBit] computes from the one it read. *)
Definition bit_update (old bit : Z) (value : bool) : byte :=
  uchar_of_Z (if value then Z.lor old (Z.shiftl 1 bit)
              else Z.land old (Z.lnot (Z.shiftl 1 bit))).

(** The byte [I2CDeviceWriteBits] computes from the one it read. *)
Definition field_update (old s l data : Z) : byte :=
  uchar_of_Z (Z.lor (Z.land old (Z.lnot (field_mask s l)))
                    (Z.land (Z.shiftl data (field_shift s l)) (field_mask s l))).

(** The decoder as the specification words it: [(firstByte << 8) |
    secondByte], read as a 16-bit two's-complement integer. *)
Definition decode_sample (firstByte secondByte : Z) : Z :=
  sint 16 (Z.lor (Z.shiftl firstByte 8) secondByte).

(** A powered device with the given register file on a bus without faults,
    the scratch buffer zeroed. *)
Definition device (rf : Z -> byte) : State :=
  mkState (mkBus rf [] []) [x00; x00; x00; x00; x00; x00].

(** The same with the outcome of the coming transactions and the buffer
    given. *)
Definition faulty_device (rf : Z -> byte) (fl : list bool) (buffer : list byte)
  : State :=
  mkState (mkBus rf fl []) buffer.

Definition cleared : Z -> byte := fun _ => x00.

(** [b'] is [b] after some transactions, each of which satisfies [P]. *)
Definition extends (P : event -> Prop) (b b' : Bus) : Prop :=
  exists evs, log b' = log b ++ evs /\ Forall P evs.

(** Accessor code that issues only transactions satisfying [P]. *)
Definition acc_emits {A} (P : event -> Prop) (m : Acc A) : Prop :=
  forall b, extends P b (snd (m b)).

(** Accessor code that leaves every register as it was. *)
Definition acc_keeps_regs {A} (m : Acc A) : Prop :=
  forall b, regs (snd (m b)) = regs b.

Definition reads_only (e : event) : Prop := is_read (tx e) = true.

(** The state and the events of an operation whose first transaction
    failed. *)
Definition stopped_at (t : transaction) (fs : list bool) (st st' : State) : Prop :=
  regs (bus st') = regs (bus st)
  /\ ITG3200Buffer st' = ITG3200Buffer st
  /\ faults (bus st') = fs
  /\ log (bus st') = log (bus st) ++ [ev_failed t].


(** * Tactics *)

(** Membership of an event's registers in the register map, by evaluation. *)
Ltac in_map :=
  intros; unfold in_register_map; cbn;
  repeat (constructor; [cbv; auto 20|]); constructor.

(** Disjointness of two concrete fields, by evaluation. *)
Ltac disjoint_fields :=
  cbv -[Z.le Z.lt Z.add Z.sub];
  first [ left; discriminate
        | right; left; lia
        | right; right; lia ].


(** * The field each operation works on *)

(** The field a setter writes, as [ITG3200.c] passes it to the accessor;
    [ITG3200SetRate] writes the whole register, bits 7..0. *)
Definition setter_descriptor (s : setter) : descriptor :=
  match s with
  | SetDeviceID _ =>
      mkDescriptor ITG3200_RA_WHO_AM_I ITG3200_DEVID_BIT ITG3200_DEVID_LENGTH
  | SetRate _ => mkDescriptor ITG3200_RA_SMPLRT_DIV 7 8
  | SetFullScaleRange _ =>
      mkDescriptor ITG3200_RA_DLPF_FS ITG3200_DF_FS_SEL_BIT ITG3200_DF_FS_SEL_LENGTH
  | SetDLPFBandwidth _ =>
      mkDescriptor ITG3200_RA_DLPF_FS ITG3200_DF_DLPF_CFG_BIT
        ITG3200_DF_DLPF_CFG_LENGTH
  | SetInterruptMode _ => mkDescriptor ITG3200_RA_INT_CFG ITG3200_INTCFG_ACTL_BIT 1
  | SetInterruptDrive _ => mkDescriptor ITG3200_RA_INT_CFG ITG3200_INTCFG_OPEN_BIT 1
  | SetInterruptLatch _ =>
      mkDescriptor ITG3200_RA_INT_CFG ITG3200_INTCFG_LATCH_INT_EN_BIT 1
  | SetInterruptLatchClear _ =>
      mkDescriptor ITG3200_RA_INT_CFG ITG3200_INTCFG_INT_ANYRD_2CLEAR_BIT 1
  | SetIntDeviceReadyEnabled _ =>
      mkDescriptor ITG3200_RA_INT_CFG ITG3200_INTCFG_ITG_RDY_EN_BIT 1
  | SetIntDataReadyEnabled _ =>
      mkDescriptor ITG3200_RA_INT_CFG ITG3200_INTCFG_RAW_RDY_EN_BIT 1
  | TriggerReset => mkDescriptor ITG3200_RA_PWR_MGM ITG3200_PWR_H_RESET_BIT 1
  | SetSleepEnabled _ => mkDescriptor ITG3200_RA_PWR_MGM ITG3200_PWR_SLEEP_BIT 1
  | SetStandbyXEnabled _ => mkDescriptor ITG3200_RA_PWR_MGM ITG3200_PWR_STBY_XG_BIT 1
  | SetStandbyYEnabled _ => mkDescriptor ITG3200_RA_PWR_MGM ITG3200_PWR_STBY_YG_BIT 1
  | SetStandbyZEnabled _ => mkDescriptor ITG3200_RA_PWR_MGM ITG3200_PWR_STBY_ZG_BIT 1
  | SetClockSource _ =>
      mkDescriptor ITG3200_RA_PWR_MGM ITG3200_PWR_CLK_SEL_BIT
        ITG3200_PWR_CLK_SEL_LENGTH
  end.

(** The byte a setter puts in its register, from the byte it read there
    ([ITG3200SetRate] reads nothing). *)
Definition setter_byte (s : setter) (old : byte) : byte :=
  let field v :=
    field_update (Z_of_uchar old) (d_bit (setter_descriptor s))
      (d_width (setter_descriptor s)) v in
  let flag v := bit_update (Z_of_uchar old) (d_bit (setter_descriptor s)) v in
  match s with
  | SetDeviceID id => field id
  | SetRate rate => uchar_of_Z rate
  | SetFullScaleRange range => field range
  | SetDLPFBandwidth bandwidth => field bandwidth
  | SetInterruptMode v => flag v
  | SetInterruptDrive v => flag v
  | SetInterruptLatch v => flag v
  | SetInterruptLatchClear v => flag v
  | SetIntDeviceReadyEnabled v => flag v
  | SetIntDataReadyEnabled v => flag v
  | TriggerReset => flag true
  | SetSleepEnabled v => flag v
  | SetStandbyXEnabled v => flag v
  | SetStandbyYEnabled v => flag v
  | SetStandbyZEnabled v => flag v
  | SetClockSource source => field source
  end.

(** The transactions of a setter on a bus that works. *)
Definition setter_events (s : setter) (w : byte) : list event :=
  let reg := d_reg (setter_descriptor s) in
  if read_modify_write s
  then [ev_ok (TxReadByte reg); ev_ok (TxWriteByte reg w)]
  else [ev_ok (TxWriteByte reg w)].

(** The field a getter reads; [ITG3200GetRate] reads the whole register. *)
Definition field_getter_descriptor (f : field_getter) : descriptor :=
  match f with
  | DeviceID =>
      mkDescriptor ITG3200_RA_WHO_AM_I ITG3200_DEVID_BIT ITG3200_DEVID_LENGTH
  | Rate => mkDescriptor ITG3200_RA_SMPLRT_DIV 7 8
  | FullScaleRange =>
      mkDescriptor ITG3200_RA_DLPF_FS ITG3200_DF_FS_SEL_BIT ITG3200_DF_FS_SEL_LENGTH
  | DLPFBandwidth =>
      mkDescriptor ITG3200_RA_DLPF_FS ITG3200_DF_DLPF_CFG_BIT
        ITG3200_DF_DLPF_CFG_LENGTH
  | ClockSource =>
      mkDescriptor ITG3200_RA_PWR_MGM ITG3200_PWR_CLK_SEL_BIT
        ITG3200_PWR_CLK_SEL_LENGTH
  end.

Definition flag_getter_descriptor (f : flag_getter) : descriptor :=
  match f with
  | InterruptMode => mkDescriptor ITG3200_RA_INT_CFG ITG3200_INTCFG_ACTL_BIT 1
  | InterruptDrive => mkDescriptor ITG3200_RA_INT_CFG ITG3200_INTCFG_OPEN_BIT 1
  | InterruptLatch =>
      mkDescriptor ITG3200_RA_INT_CFG ITG3200_INTCFG_LATCH_INT_EN_BIT 1
  | InterruptLatchClear =>
      mkDescriptor ITG3200_RA_INT_CFG ITG3200_INTCFG_INT_ANYRD_2CLEAR_BIT 1
  | IntDeviceReadyEnabled =>
      mkDescriptor ITG3200_RA_INT_CFG ITG3200_INTCFG_ITG_RDY_EN_BIT 1
  | IntDataReadyEnabled =>
      mkDescriptor ITG3200_RA_INT_CFG ITG3200_INTCFG_RAW_RDY_EN_BIT 1
  | IntDeviceReadyStatus =>
      mkDescriptor ITG3200_RA_INT_STATUS ITG3200_INTSTAT_ITG_RDY_BIT 1
  | IntDataReadyStatus =>
      mkDescriptor ITG3200_RA_INT_STATUS ITG3200_INTSTAT_RAW_DATA_READY_BIT 1
  | SleepEnabled => mkDescriptor ITG3200_RA_PWR_MGM ITG3200_PWR_SLEEP_BIT 1
  | StandbyXEnabled => mkDescriptor ITG3200_RA_PWR_MGM ITG3200_PWR_STBY_XG_BIT 1
  | StandbyYEnabled => mkDescriptor ITG3200_RA_PWR_MGM ITG3200_PWR_STBY_YG_BIT 1
  | StandbyZEnabled => mkDescriptor ITG3200_RA_PWR_MGM ITG3200_PWR_STBY_ZG_BIT 1
  end.

(** Bit [i] lies in the field. *)
Definition in_field (d : descriptor) (i : Z) : Prop :=
  field_shift (d_bit d) (d_width d) <= i <= d_bit d.

(** The four power flags that have a setter and a getter. *)
Inductive pwr_flag : Type :=
| SLEEP | STBY_XG | STBY_YG | STBY_ZG.

Definition set_pwr_flag (f : pwr_flag) (enabled : bool) : Driver unit :=
  match f with
  | SLEEP => ITG3200SetSleepEnabled enabled
  | STBY_XG => ITG3200SetStandbyXEnabled enabled
  | STBY_YG => ITG3200SetStandbyYEnabled enabled
  | STBY_ZG => ITG3200SetStandbyZEnabled enabled
  end.

Definition get_pwr_flag (f : pwr_flag) : Driver (Result bool) :=
  match f with
  | SLEEP => ITG3200GetSleepEnabled
  | STBY_XG => ITG3200GetStandbyXEnabled
  | STBY_YG => ITG3200GetStandbyYEnabled
  | STBY_ZG => ITG3200GetStandbyZEnabled
  end.

(** Accessor code that changes no register but [reg]. *)
Definition acc_touches_only {A} (reg : Z) (m : Acc A) : Prop :=
  forall b r, r <> reg -> regs (snd (m b)) r = regs b r.

(** The value of a field getter, by division: the register over
    [2 ^ lowest bit], modulo [2 ^ width]. *)
Definition field_getter_value (f : field_getter) (rf : Z -> byte) : Z :=
  match f with
  | DeviceID => (Z_of_uchar (rf ITG3200_RA_WHO_AM_I) / 2) mod 64
  | Rate => Z_of_uchar (rf ITG3200_RA_SMPLRT_DIV)
  | FullScaleRange => (Z_of_uchar (rf ITG3200_RA_DLPF_FS) / 8) mod 4
  | DLPFBandwidth => Z_of_uchar (rf ITG3200_RA_DLPF_FS) mod 8
  | ClockSource => Z_of_uchar (rf ITG3200_RA_PWR_MGM) mod 8
  end.

Definition field_getter_bound (f : field_getter) : Z :=
  match f with
  | DeviceID => 64
  | Rate => 256
  | FullScaleRange => 4
  | DLPFBandwidth => 8
  | ClockSource => 8
  end.

(** What the caller of a getter receives.  The getters are declared
    [unsigned char] and [boolean]: the return type has no failure value, so
    the caller is handed a plain value also when the read failed;
    [on_failure] stands for that value, which the sources do not decide. *)
Definition as_returned {A} (on_failure : A) (r : Result A) : A :=
  match r with
  | Ok a => a
  | BusTransactionFailure => on_failure
  end.

Definition returning {A} (on_failure : A) (op : Driver (Result A)) : Driver A :=
  fun st => (as_returned on_failure (fst (op st)), snd (op st)).

(** Whether one of the events failed. *)
Definition some_failed (evs : list event) : bool :=
  existsb (fun e => negb (ok e)) evs.

(** A cleared device whose next transaction fails. *)
Definition bus_down : State :=
  faulty_device cleared [true] [x00; x00; x00; x00; x00; x00].

(** * Facts about the C data *)

Lemma Z_of_uchar_range (b : byte) : 0 <= Z_of_uchar b < 256.
Proof.
  unfold Z_of_uchar. pose proof (Byte.to_N_bounded b). lia.
Qed.

Lemma Z_of_uchar_of_Z (z : Z) : Z_of_uchar (uchar_of_Z z) = z mod 256.
Proof.
  unfold Z_of_uchar, uchar_of_Z.
  assert (Hr : 0 <= z mod 256 < 256) by (apply Z.mod_pos_bound; lia).
  destruct (Byte.of_N (Z.to_N (z mod 256))) as [c|] eqn:E.
  - apply Byte.to_of_N in E. rewrite E. lia.
  - apply Byte.of_N_None_iff in E. lia.
Qed.

Lemma uchar_of_Z_of_uchar (b : byte) : uchar_of_Z (Z_of_uchar b) = b.
Proof.
  pose proof (Z_of_uchar_range b) as Hr.
  unfold uchar_of_Z. rewrite Z.mod_small by exact Hr.
  unfold Z_of_uchar. rewrite N2Z.id, Byte.of_to_N. reflexivity.
Qed.

Lemma testbit_uchar_of_Z (z i : Z) :
  0 <= i < 8 ->
  Z.testbit (Z_of_uchar (uchar_of_Z z)) i = Z.testbit z i.
Proof.
  intros Hi. rewrite Z_of_uchar_of_Z. change 256 with (2 ^ 8).
  apply Z.mod_pow2_bits_low. lia.
Qed.

Lemma testbit_uchar_high (b : byte) (i : Z) :
  8 <= i -> Z.testbit (Z_of_uchar b) i = false.
Proof.
  intros Hi. pose proof (Z_of_uchar_range b) as Hr.
  rewrite <- (Z.mod_small (Z_of_uchar b) (2 ^ 8)) by (change (2 ^ 8) with 256; lia).
  apply Z.mod_pow2_bits_high. lia.
Qed.

(** The value [sint 16] gives is the one congruent to its argument modulo
    [2^16] in the signed range. *)
Lemma sint16_range (z : Z) : -32768 <= sint 16 z <= 32767.
Proof.
  unfold sint. change (2 ^ 16) with 65536. change (2 ^ (16 - 1)) with 32768.
  pose proof (Z.mod_pos_bound z 65536 ltac:(lia)).
  destruct (z mod 65536 <? 32768) eqn:E; [apply Z.ltb_lt in E | apply Z.ltb_ge in E]; lia.
Qed.

(** A low byte or-ed under a multiple of 256 adds to it. *)
Lemma lor_high_low (m lo : Z) :
  0 <= lo < 256 -> Z.lor (m * 256) lo = m * 256 + lo.
Proof.
  intros Hlo.
  assert (Hdisj : Z.land (m * 256) lo = 0).
  { apply Z.bits_inj'. intros i Hi.
    rewrite Z.land_spec, Z.bits_0.
    destruct (Z.ltb_spec i 8).
    - change 256 with (2 ^ 8). rewrite Z.mul_pow2_bits_low by lia. reflexivity.
    - rewrite <- (Z.mod_small lo (2 ^ 8)) by (change (2 ^ 8) with 256; lia).
      rewrite Z.mod_pow2_bits_high by lia. apply andb_false_r. }
  rewrite <- Z.lxor_lor by exact Hdisj.
  symmetry. apply Z.add_nocarry_lxor. exact Hdisj.
Qed.

(** The expression [(((int) hi) << 8) | lo] of the driver, on a 16-bit
    [int], is the 16-bit two's-complement reading of the two bytes. *)
Lemma decode_int16 (hi lo : byte) :
  int_or (int_shl 16 (Z_of_uchar hi) 8) (Z_of_uchar lo)
  = sint 16 (Z.lor (Z.shiftl (Z_of_uchar hi) 8) (Z_of_uchar lo)).
Proof.
  pose proof (Z_of_uchar_range hi) as Hh. pose proof (Z_of_uchar_range lo) as Hl.
  unfold int_or, int_shl. rewrite Z.shiftl_mul_pow2 by lia. change (2 ^ 8) with 256.
  rewrite (lor_high_low (Z_of_uchar hi)) by exact Hl.
  unfold sint. change (2 ^ 16) with 65536. change (2 ^ (16 - 1)) with 32768.
  rewrite (Z.mod_small (Z_of_uchar hi * 256)) by lia.
  rewrite (Z.mod_small (Z_of_uchar hi * 256 + Z_of_uchar lo)) by lia.
  destruct (Z_of_uchar hi * 256 <? 32768) eqn:E1;
    destruct (Z_of_uchar hi * 256 + Z_of_uchar lo <? 32768) eqn:E2;
    try apply Z.ltb_lt in E1; try apply Z.ltb_ge in E1;
    try apply Z.ltb_lt in E2; try apply Z.ltb_ge in E2; try lia.
  - apply lor_high_low. exact Hl.
  - replace (Z_of_uchar hi * 256 - 65536) with ((Z_of_uchar hi - 256) * 256) by lia.
    rewrite lor_high_low by exact Hl. lia.
Qed.

(** * Facts about bit fields *)

Lemma testbit_field_mask (s l i : Z) :
  field_ok s l -> 0 <= i ->
  Z.testbit (field_mask s l) i = (field_shift s l <=? i) && (i <=? s).
Proof.
  unfold field_ok, field_mask, field_shift. intros (Hl & Hs & H7) Hi.
  rewrite Z.shiftl_spec by lia.
  destruct (Z.leb_spec (s - l + 1) i) as [Hlow|Hlow]; simpl.
  - rewrite Z.testbit_ones_nonneg by lia.
    destruct (Z.ltb_spec (i - (s - l + 1)) l), (Z.leb_spec i s); try reflexivity; lia.
  - apply Z.testbit_neg_r. lia.
Qed.

(** The byte a field write stores: the field's bits are those of the
    value, every other bit is the old one. *)
Lemma field_write_bits (old v s l i : Z) :
  field_ok s l -> 0 <= i < 8 ->
  Z.testbit
    (Z_of_uchar (uchar_of_Z
       (Z.lor (Z.land old (Z.lnot (field_mask s l)))
              (Z.land (Z.shiftl v (field_shift s l)) (field_mask s l))))) i
  = if (field_shift s l <=? i) && (i <=? s)
    then Z.testbit v (i - field_shift s l)
    else Z.testbit old i.
Proof.
  intros Hf Hi. rewrite testbit_uchar_of_Z by exact Hi.
  rewrite Z.lor_spec, !Z.land_spec, Z.lnot_spec by lia.
  rewrite testbit_field_mask by (exact Hf || lia).
  rewrite Z.shiftl_spec by lia.
  destruct ((field_shift s l <=? i) && (i <=? s)); simpl.
  - rewrite andb_false_r, andb_true_r. reflexivity.
  - rewrite andb_true_r, andb_false_r, orb_false_r. reflexivity.
Qed.

(** Reading a field back from the byte a field write stored. *)
Lemma field_read_after_write (old v s l : Z) :
  field_ok s l ->
  Z.land
    (Z.shiftr
       (Z_of_uchar (uchar_of_Z
          (Z.lor (Z.land old (Z.lnot (field_mask s l)))
                 (Z.land (Z.shiftl v (field_shift s l)) (field_mask s l)))))
       (field_shift s l))
    (Z.ones l)
  = v mod 2 ^ l.
Proof.
  intros Hf. pose proof Hf as (Hl & Hs & H7).
  rewrite Z.land_ones by lia.
  apply Z.bits_inj'. intros i Hi.
  rewrite !Z.testbit_mod_pow2 by lia.
  destruct (Z.ltb_spec i l) as [Hil|Hil]; simpl; [|reflexivity].
  rewrite Z.shiftr_spec by lia.
  unfold field_shift in *.
  rewrite field_write_bits by (exact Hf || lia).
  unfold field_shift.
  replace (s - l + 1 <=? i + (s - l + 1)) with true by (symmetry; apply Z.leb_le; lia).
  replace (i + (s - l + 1) <=? s) with true by (symmetry; apply Z.leb_le; lia).
  simpl. f_equal. lia.
Qed.

(** The byte a single-bit write stores. *)
Lemma bit_write_bits (old bit i : Z) (value : bool) :
  0 <= bit -> 0 <= i < 8 ->
  Z.testbit
    (Z_of_uchar (uchar_of_Z
       (if value then Z.lor old (Z.shiftl 1 bit)
        else Z.land old (Z.lnot (Z.shiftl 1 bit))))) i
  = if i =? bit then value else Z.testbit old i.
Proof.
  intros Hb Hi. rewrite testbit_uchar_of_Z by exact Hi.
  rewrite Z.shiftl_1_l.
  destruct value.
  - rewrite Z.lor_spec, Z.pow2_bits_eqb by lia.
    rewrite (Z.eqb_sym bit i).
    destruct (i =? bit); [apply orb_true_r | apply orb_false_r].
  - rewrite Z.land_spec, Z.lnot_spec, Z.pow2_bits_eqb by lia.
    rewrite (Z.eqb_sym bit i).
    destruct (i =? bit); [apply andb_false_r | apply andb_true_r].
Qed.

(** * Facts about the bus and the accessor *)

Lemma attempt_reliable (t : transaction) (b : Bus) :
  faults b = [] ->
  attempt t b = (true, mkBus (regs b) [] (log b ++ [ev_ok t])).
Proof. intros H. unfold attempt. rewrite H. reflexivity. Qed.

Lemma attempt_failing (t : transaction) (b : Bus) (fs : list bool) :
  faults b = true :: fs ->
  attempt t b = (false, mkBus (regs b) fs (log b ++ [ev_failed t])).
Proof. intros H. unfold attempt. rewrite H. reflexivity. Qed.

Lemma ReadByte_reliable (reg : Z) (b : Bus) :
  faults b = [] ->
  I2CDeviceReadByte reg b
  = (Ok (Z_of_uchar (regs b reg)),
     mkBus (regs b) [] (log b ++ [ev_ok (TxReadByte reg)])).
Proof.
  intros H. unfold I2CDeviceReadByte, acc_bind, Transport.readByte.
  rewrite attempt_reliable by exact H. reflexivity.
Qed.

Lemma WriteByte_reliable (reg data : Z) (b : Bus) :
  faults b = [] ->
  I2CDeviceWriteByte reg data b
  = (Ok tt,
     mkBus (set_reg reg (uchar_of_Z data) (regs b)) []
           (log b ++ [ev_ok (TxWriteByte reg (uchar_of_Z data))])).
Proof.
  intros H. unfold I2CDeviceWriteByte, Transport.writeByte.
  rewrite attempt_reliable by exact H. reflexivity.
Qed.

Lemma ReadBit_reliable (reg bit : Z) (b : Bus) :
  faults b = [] ->
  I2CDeviceReadBit reg bit b
  = (Ok (Z.testbit (Z_of_uchar (regs b reg)) bit),
     mkBus (regs b) [] (log b ++ [ev_ok (TxReadByte reg)])).
Proof.
  intros H. unfold I2CDeviceReadBit, acc_bind.
  rewrite ReadByte_reliable by exact H. reflexivity.
Qed.

Lemma ReadBits_reliable (reg s l : Z) (b : Bus) :
  faults b = [] ->
  I2CDeviceReadBits reg s l b
  = (Ok (Z.land (Z.shiftr (Z_of_uchar (regs b reg)) (field_shift s l)) (Z.ones l)),
     mkBus (regs b) [] (log b ++ [ev_ok (TxReadByte reg)])).
Proof.
  intros H. unfold I2CDeviceReadBits, acc_bind.
  rewrite ReadByte_reliable by exact H. reflexivity.
Qed.

Lemma WriteBit_reliable (reg bit : Z) (value : bool) (b : Bus) :
  faults b = [] ->
  let w := bit_update (Z_of_uchar (regs b reg)) bit value in
  I2CDeviceWriteBit reg bit value b
  = (Ok tt,
     mkBus (set_reg reg w (regs b)) []
           (log b ++ [ev_ok (TxReadByte reg); ev_ok (TxWriteByte reg w)])).
Proof.
  intros H w. unfold I2CDeviceWriteBit, acc_bind.
  rewrite ReadByte_reliable by exact H.
  rewrite WriteByte_reliable by reflexivity.
  cbn [regs log]. rewrite <- app_assoc. reflexivity.
Qed.

Lemma WriteBits_reliable (reg s l data : Z) (b : Bus) :
  faults b = [] ->
  let w := field_update (Z_of_uchar (regs b reg)) s l data in
  I2CDeviceWriteBits reg s l data b
  = (Ok tt,
     mkBus (set_reg reg w (regs b)) []
           (log b ++ [ev_ok (TxReadByte reg); ev_ok (TxWriteByte reg w)])).
Proof.
  intros H w. unfold I2CDeviceWriteBits, acc_bind.
  rewrite ReadByte_reliable by exact H.
  rewrite WriteByte_reliable by reflexivity.
  cbn [regs log]. rewrite <- app_assoc. reflexivity.
Qed.

Lemma set_reg_same (reg : Z) (v : byte) (rf : Z -> byte) :
  set_reg reg v rf reg = v.
Proof. unfold set_reg. rewrite Z.eqb_refl. reflexivity. Qed.

Lemma set_reg_other (reg r : Z) (v : byte) (rf : Z -> byte) :
  r <> reg -> set_reg reg v rf r = rf r.
Proof.
  intros H. unfold set_reg. destruct (Z.eqb_spec r reg); [contradiction | reflexivity].
Qed.

(** * Burst reads *)

Lemma attempt_eq (t : transaction) (b : Bus) :
  attempt t b
  = (next_ok b,
     mkBus (regs b) (tl (faults b)) (log b ++ [mkEvent t (next_ok b)])).
Proof. destruct b as [rf [|f fl] lg]; reflexivity. Qed.

Lemma burst_into_buffer_eq (reg : Z) (count : nat) (st : State) :
  burst_into_buffer reg count st
  = (if next_ok (bus st) then Ok tt else BusTransactionFailure,
     mkState
       (mkBus (regs (bus st)) (tl (faults (bus st)))
          (log (bus st) ++ [mkEvent (TxReadBytes reg count) (next_ok (bus st))]))
       (if next_ok (bus st)
        then store_bytes
               (map (fun i => regs (bus st) (reg + Z.of_nat i)) (seq 0 count))
               (ITG3200Buffer st)
        else ITG3200Buffer st)).
Proof. destruct st as [[rf [|[|] fl] lg] buf]; reflexivity. Qed.

Lemma sample_state (g : sample_getter) (st : State) :
  snd (get_sample g st) = snd (burst_into_buffer (sample_register g) 2 st).
Proof.
  destruct g; cbn [get_sample sample_register];
    unfold ITG3200GetTemperature, ITG3200GetRotationX, ITG3200GetRotationY,
      ITG3200GetRotationZ;
    destruct (burst_into_buffer _ 2 st); reflexivity.
Qed.

Lemma sample_value (g : sample_getter) (st : State) :
  fst (get_sample g st)
  = decode_sample (buffer_at (snd (get_sample g st)) 0)
                  (buffer_at (snd (get_sample g st)) 1).
Proof.
  unfold decode_sample, buffer_at. rewrite <- decode_int16.
  destruct g; cbn [get_sample];
    unfold ITG3200GetTemperature, ITG3200GetRotationX, ITG3200GetRotationY,
      ITG3200GetRotationZ;
    destruct (burst_into_buffer _ 2 st); reflexivity.
Qed.

Lemma rotation_state (st : State) :
  snd (ITG3200GetRotation st)
  = snd (burst_into_buffer ITG3200_RA_GYRO_XOUT_H 6 st).
Proof.
  unfold ITG3200GetRotation. destruct (burst_into_buffer _ 6 st); reflexivity.
Qed.

Lemma rotation_value (st : State) :
  let st' := snd (ITG3200GetRotation st) in
  fst (ITG3200GetRotation st)
  = (decode_sample (buffer_at st' 0) (buffer_at st' 1),
     decode_sample (buffer_at st' 2) (buffer_at st' 3),
     decode_sample (buffer_at st' 4) (buffer_at st' 5)).
Proof.
  unfold decode_sample, buffer_at. rewrite <- !decode_int16.
  unfold ITG3200GetRotation. destruct (burst_into_buffer _ 6 st); reflexivity.
Qed.

(** * The decoder *)

(** C1.  Every read of a two-byte register pair (the temperature, each
    single-axis rotation, and the three pairs of the combined rotation read)
    returns [(firstByte << 8) | secondByte] of the pair read as a 16-bit
    two's-complement integer, a value between -32768 and 32767; the pairs
    (0x00,0x00), (0x7F,0xFF), (0x80,0x00) and (0xFF,0xFF) decode to 0, 32767,
    -32768 and -1. *)
Theorem two_byte_reads_decode (st : State) :
  faults (bus st) = [] ->
  let reg r := Z_of_uchar (regs (bus st) r) in
  (forall g : sample_getter,
      fst (get_sample g st)
      = decode_sample (reg (sample_register g)) (reg (sample_register g + 1))
      /\ -32768 <= fst (get_sample g st) <= 32767)
  /\ fst (ITG3200GetRotation st)
     = (decode_sample (reg ITG3200_RA_GYRO_XOUT_H) (reg ITG3200_RA_GYRO_XOUT_L),
        decode_sample (reg ITG3200_RA_GYRO_YOUT_H) (reg ITG3200_RA_GYRO_YOUT_L),
        decode_sample (reg ITG3200_RA_GYRO_ZOUT_H) (reg ITG3200_RA_GYRO_ZOUT_L))
  /\ (forall hi lo : byte,
         -32768 <= decode_sample (Z_of_uchar hi) (Z_of_uchar lo) <= 32767)
  /\ decode_sample 0x00 0x00 = 0
  /\ decode_sample 0x7F 0xFF = 32767
  /\ decode_sample 0x80 0x00 = -32768
  /\ decode_sample 0xFF 0xFF = -1.
Proof.
  intros Hrel reg.
  assert (Hok : next_ok (bus st) = true) by (unfold next_ok; rewrite Hrel; reflexivity).
  split; [|split; [|split; [|repeat split]]].
  - intros g. rewrite sample_value. split; [|apply sint16_range].
    rewrite sample_state, burst_into_buffer_eq, Hok.
    unfold buffer_at, reg. cbn [snd ITG3200Buffer seq map store_bytes app nth].
    rewrite Z.add_0_r. reflexivity.
  - rewrite rotation_value. cbv zeta.
    rewrite rotation_state, burst_into_buffer_eq, Hok.
    unfold buffer_at, reg. reflexivity.
  - intros hi lo. apply sint16_range.
Qed.

(** The theorem at a device whose temperature registers hold (0x80, 0x00):
    the reading is -32768. *)
Lemma two_byte_reads_decode_witness :
  let st := device (set_reg ITG3200_RA_TEMP_OUT_H x80 cleared) in
  faults (bus st) = [] /\ fst (ITG3200GetTemperature st) = -32768.
Proof.
  intros st. split; [reflexivity|].
  pose proof (two_byte_reads_decode st eq_refl) as (Hs & _).
  destruct (Hs Temperature) as (Hv & _).
  exact Hv.
Defined.

(** The four byte pairs of the specification, read from the device. *)
Example temperature_of_pairs :
  let at_pair hi lo :=
    fst (ITG3200GetTemperature
           (device (set_reg ITG3200_RA_TEMP_OUT_H hi
                      (set_reg ITG3200_RA_TEMP_OUT_L lo cleared)))) in
  at_pair x00 x00 = 0 /\ at_pair x7f xff = 32767
  /\ at_pair x80 x00 = -32768 /\ at_pair xff xff = -1.
Proof. repeat split. Qed.

(** On an [int] of 32 bits the same expression would not give the
    two's-complement reading: the width of [int] matters. *)
Remark decode_on_wider_int :
  int_or (int_shl 32 (Z_of_uchar x80) 8) (Z_of_uchar x00) = 32768.
Proof. reflexivity. Qed.

(** * What the accessor puts on the bus *)

Lemma extends_refl (P : event -> Prop) (b : Bus) : extends P b b.
Proof. exists []. split; [symmetry; apply app_nil_r | constructor]. Qed.

Lemma extends_trans (P : event -> Prop) (b1 b2 b3 : Bus) :
  extends P b1 b2 -> extends P b2 b3 -> extends P b1 b3.
Proof.
  intros (e1 & H1 & F1) (e2 & H2 & F2). exists (e1 ++ e2). split.
  - rewrite H2, H1. symmetry. apply app_assoc.
  - apply Forall_app. split; assumption.
Qed.

Lemma extends_attempt (P : event -> Prop) (t : transaction) (b : Bus) :
  (forall o, P (mkEvent t o)) -> extends P b (snd (attempt t b)).
Proof.
  intros HP. rewrite attempt_eq. exists [mkEvent t (next_ok b)].
  split; [reflexivity | constructor; [apply HP | constructor]].
Qed.

Section Emits.

Variable P : event -> Prop.

Lemma emits_ret {A} (a : A) : acc_emits P (acc_ret a).
Proof. intros b. apply extends_refl. Qed.

Lemma emits_bind {A B} (m : Acc A) (k : A -> Acc B) :
  acc_emits P m -> (forall a, acc_emits P (k a)) -> acc_emits P (acc_bind m k).
Proof.
  intros Hm Hk b. unfold acc_bind. specialize (Hm b).
  destruct (m b) as [[a|] b1]; cbn [snd] in *.
  - eapply extends_trans; [exact Hm | apply Hk].
  - exact Hm.
Qed.

Lemma emits_readByte (reg : Z) :
  (forall o, P (mkEvent (TxReadByte reg) o)) ->
  acc_emits P (Transport.readByte reg).
Proof.
  intros HP b. pose proof (extends_attempt P _ b HP) as H.
  unfold Transport.readByte. destruct (attempt _ b) as [[|] b1]; exact H.
Qed.

Lemma emits_readBytes (reg : Z) (count : nat) :
  (forall o, P (mkEvent (TxReadBytes reg count) o)) ->
  acc_emits P (Transport.readBytes reg count).
Proof.
  intros HP b. pose proof (extends_attempt P _ b HP) as H.
  unfold Transport.readBytes. destruct (attempt _ b) as [[|] b1]; exact H.
Qed.

Lemma emits_writeByte (reg : Z) (v : byte) :
  (forall o, P (mkEvent (TxWriteByte reg v) o)) ->
  acc_emits P (Transport.writeByte reg v).
Proof.
  intros HP b. pose proof (extends_attempt P _ b HP) as H.
  unfold Transport.writeByte. destruct (attempt _ b) as [[|] b1]; exact H.
Qed.

Lemma emits_ReadByte (reg : Z) :
  (forall o, P (mkEvent (TxReadByte reg) o)) ->
  acc_emits P (I2CDeviceReadByte reg).
Proof.
  intros HP. apply emits_bind; [apply emits_readByte, HP | intros; apply emits_ret].
Qed.

Lemma emits_ReadBit (reg bit : Z) :
  (forall o, P (mkEvent (TxReadByte reg) o)) ->
  acc_emits P (I2CDeviceReadBit reg bit).
Proof.
  intros HP. apply emits_bind; [apply emits_ReadByte, HP | intros; apply emits_ret].
Qed.

Lemma emits_ReadBits (reg s l : Z) :
  (forall o, P (mkEvent (TxReadByte reg) o)) ->
  acc_emits P (I2CDeviceReadBits reg s l).
Proof.
  intros HP. apply emits_bind; [apply emits_ReadByte, HP | intros; apply emits_ret].
Qed.

Lemma emits_WriteByte (reg data : Z) :
  (forall v o, P (mkEvent (TxWriteByte reg v) o)) ->
  acc_emits P (I2CDeviceWriteByte reg data).
Proof. intros HP. apply emits_writeByte. intros o. apply HP. Qed.

Lemma emits_WriteBit (reg bit : Z) (value : bool) :
  (forall o, P (mkEvent (TxReadByte reg) o)) ->
  (forall v o, P (mkEvent (TxWriteByte reg v) o)) ->
  acc_emits P (I2CDeviceWriteBit reg bit value).
Proof.
  intros HR HW. apply emits_bind; [apply emits_ReadByte, HR|].
  intros a. apply emits_WriteByte, HW.
Qed.

Lemma emits_WriteBits (reg s l data : Z) :
  (forall o, P (mkEvent (TxReadByte reg) o)) ->
  (forall v o, P (mkEvent (TxWriteByte reg v) o)) ->
  acc_emits P (I2CDeviceWriteBits reg s l data).
Proof.
  intros HR HW. apply emits_bind; [apply emits_ReadByte, HR|].
  intros a. apply emits_WriteByte, HW.
Qed.

Lemma on_bus_extends {A} (m : Acc A) (st : State) :
  acc_emits P m -> extends P (bus st) (bus (snd (on_bus m st))).
Proof.
  intros Hm. unfold on_bus. specialize (Hm (bus st)).
  destruct (m (bus st)) as [r b1]. exact Hm.
Qed.

Lemma burst_extends (reg : Z) (count : nat) (st : State) :
  (forall o, P (mkEvent (TxReadBytes reg count) o)) ->
  extends P (bus st) (bus (snd (burst_into_buffer reg count st))).
Proof.
  intros HP. rewrite burst_into_buffer_eq. cbn [snd bus].
  exists [mkEvent (TxReadBytes reg count) (next_ok (bus st))].
  split; [reflexivity | constructor; [apply HP | constructor]].
Qed.

End Emits.

Lemma keeps_regs_ReadByte (reg : Z) : acc_keeps_regs (I2CDeviceReadByte reg).
Proof.
  intros b. unfold I2CDeviceReadByte, acc_bind, Transport.readByte.
  rewrite attempt_eq. destruct (next_ok b); reflexivity.
Qed.

Lemma keeps_regs_ReadBit (reg bit : Z) : acc_keeps_regs (I2CDeviceReadBit reg bit).
Proof.
  intros b. unfold I2CDeviceReadBit, acc_bind.
  pose proof (keeps_regs_ReadByte reg b) as H.
  destruct (I2CDeviceReadByte reg b) as [[a|] b1]; exact H.
Qed.

Lemma keeps_regs_ReadBits (reg s l : Z) : acc_keeps_regs (I2CDeviceReadBits reg s l).
Proof.
  intros b. unfold I2CDeviceReadBits, acc_bind.
  pose proof (keeps_regs_ReadByte reg b) as H.
  destruct (I2CDeviceReadByte reg b) as [[a|] b1]; exact H.
Qed.

Lemma on_bus_keeps_regs {A} (m : Acc A) (st : State) :
  acc_keeps_regs m -> regs (bus (snd (on_bus m st))) = regs (bus st).
Proof.
  intros Hm. unfold on_bus. specialize (Hm (bus st)).
  destruct (m (bus st)) as [r b1]. exact Hm.
Qed.

(** * Rotation reads *)

(** C7.  The combined rotation read issues one burst transaction, of six
    bytes from GYRO_XOUT_H, and returns X, Y and Z as the decode of bytes
    0-1, 2-3 and 4-5 of [ITG3200Buffer] as the burst left it: of the
    registers GYRO_XOUT_H..GYRO_ZOUT_L when the burst went through; each
    single-axis read issues one burst transaction of two bytes from its own
    high register and returns the decode of bytes 0-1; nothing else is put
    on the bus.  (The temperature read, the fourth two-byte read, does the
    same at TEMP_OUT_H.) *)
Theorem rotation_reads_burst (st : State) :
  let burst reg count := mkEvent (TxReadBytes reg count) (next_ok (bus st)) in
  let after := snd (ITG3200GetRotation st) in
  let byte s i := Z_of_uchar (nth i (ITG3200Buffer s) x00) in
  let reg r := Z_of_uchar (regs (bus st) r) in
  log (bus after) = log (bus st) ++ [burst ITG3200_RA_GYRO_XOUT_H 6%nat]
  /\ fst (ITG3200GetRotation st)
     = (decode_sample (byte after 0%nat) (byte after 1%nat),
        decode_sample (byte after 2%nat) (byte after 3%nat),
        decode_sample (byte after 4%nat) (byte after 5%nat))
  /\ (if next_ok (bus st)
      then firstn 6 (ITG3200Buffer after)
           = map (regs (bus st))
               [ ITG3200_RA_GYRO_XOUT_H; ITG3200_RA_GYRO_XOUT_L;
                 ITG3200_RA_GYRO_YOUT_H; ITG3200_RA_GYRO_YOUT_L;
                 ITG3200_RA_GYRO_ZOUT_H; ITG3200_RA_GYRO_ZOUT_L ]
           /\ fst (ITG3200GetRotation st)
              = (decode_sample (reg ITG3200_RA_GYRO_XOUT_H)
                   (reg ITG3200_RA_GYRO_XOUT_L),
                 decode_sample (reg ITG3200_RA_GYRO_YOUT_H)
                   (reg ITG3200_RA_GYRO_YOUT_L),
                 decode_sample (reg ITG3200_RA_GYRO_ZOUT_H)
                   (reg ITG3200_RA_GYRO_ZOUT_L))
      else ITG3200Buffer after = ITG3200Buffer st)
  /\ log (bus (snd (ITG3200GetRotationX st)))
     = log (bus st) ++ [burst ITG3200_RA_GYRO_XOUT_H 2%nat]
  /\ log (bus (snd (ITG3200GetRotationY st)))
     = log (bus st) ++ [burst ITG3200_RA_GYRO_YOUT_H 2%nat]
  /\ log (bus (snd (ITG3200GetRotationZ st)))
     = log (bus st) ++ [burst ITG3200_RA_GYRO_ZOUT_H 2%nat]
  /\ forall g : sample_getter,
       log (bus (snd (get_sample g st)))
       = log (bus st) ++ [burst (sample_register g) 2%nat]
       /\ fst (get_sample g st)
          = decode_sample (byte (snd (get_sample g st)) 0%nat)
                          (byte (snd (get_sample g st)) 1%nat)
       /\ (if next_ok (bus st)
           then firstn 2 (ITG3200Buffer (snd (get_sample g st)))
                = [ regs (bus st) (sample_register g);
                    regs (bus st) (sample_register g + 1) ]
                /\ fst (get_sample g st)
                   = decode_sample (reg (sample_register g))
                       (reg (sample_register g + 1))
           else ITG3200Buffer (snd (get_sample g st)) = ITG3200Buffer st).
Proof.
  intros burst after byte reg.
  assert (Hs : forall g : sample_getter,
             log (bus (snd (get_sample g st)))
             = log (bus st) ++ [burst (sample_register g) 2%nat]).
  { intros g. rewrite sample_state, burst_into_buffer_eq. reflexivity. }
  split; [|split; [|split; [|split; [|split; [|split]]]]].
  - subst after. rewrite rotation_state, burst_into_buffer_eq. reflexivity.
  - exact (rotation_value st).
  - pose proof (rotation_value st) as Hv. cbv zeta in Hv.
    fold after in Hv. rewrite Hv. clear Hv.
    subst after. rewrite rotation_state, burst_into_buffer_eq.
    cbn [snd ITG3200Buffer].
    destruct (next_ok (bus st)); [|reflexivity].
    split; reflexivity.
  - exact (Hs RotationX).
  - exact (Hs RotationY).
  - exact (Hs RotationZ).
  - intros g. split; [apply Hs|]. split; [exact (sample_value g st)|].
    rewrite (sample_value g st). rewrite sample_state, burst_into_buffer_eq.
    cbn [snd ITG3200Buffer].
    destruct (next_ok (bus st)); [|reflexivity].
    unfold buffer_at, reg.
    cbn [ITG3200Buffer seq map store_bytes app nth firstn length skipn].
    rewrite Z.add_0_r. split; reflexivity.
Qed.

(** * Getters *)

(** C10.  No getter writes: whatever the bus does, the transactions a
    getter issues are reads, and the device's registers are afterwards what
    they were. *)
Theorem getters_issue_only_reads (g : getter) (st : State) :
  regs (bus (after_getter g st)) = regs (bus st)
  /\ exists evs,
       log (bus (after_getter g st)) = log (bus st) ++ evs
       /\ Forall (fun e => is_read (tx e) = true) evs.
Proof.
  destruct g as [f|f|s|]; cbn [after_getter].
  - split.
    + destruct f; apply on_bus_keeps_regs;
        (apply keeps_regs_ReadBits || apply keeps_regs_ReadByte).
    + destruct f; apply (on_bus_extends reads_only);
        (apply emits_ReadBits || apply emits_ReadByte); reflexivity.
  - split.
    + destruct f; apply on_bus_keeps_regs, keeps_regs_ReadBit.
    + destruct f; apply (on_bus_extends reads_only), emits_ReadBit; reflexivity.
  - rewrite sample_state. split.
    + rewrite burst_into_buffer_eq. reflexivity.
    + apply (burst_extends reads_only). reflexivity.
  - rewrite rotation_state. split.
    + rewrite burst_into_buffer_eq. reflexivity.
    + apply (burst_extends reads_only). reflexivity.
Qed.

(** * The register map *)

Lemma setter_in_map (s : setter) (st : State) :
  extends in_register_map (bus st) (bus (snd (run_setter s st))).
Proof.
  destruct s; cbn [run_setter];
    apply (on_bus_extends in_register_map);
    (apply emits_WriteBits || apply emits_WriteBit || apply emits_WriteByte);
    in_map.
Qed.

Lemma getter_in_map (g : getter) (st : State) :
  extends in_register_map (bus st) (bus (after_getter g st)).
Proof.
  destruct g as [f|f|s|]; cbn [after_getter].
  - destruct f; apply (on_bus_extends in_register_map);
      (apply emits_ReadBits || apply emits_ReadByte); in_map.
  - destruct f; apply (on_bus_extends in_register_map), emits_ReadBit; in_map.
  - rewrite sample_state. apply burst_extends. destruct s; in_map.
  - rewrite rotation_state. apply burst_extends. in_map.
Qed.

(** C9.  The bus address bytes and the register addresses are those of the
    device (0xD0 and 0xD1, the 7-bit address 0x68 with the direction bit;
    WHO_AM_I 0x00 up to PWR_MGM 0x3E), and every transaction of every
    operation addresses registers of this map only. *)
Theorem protocol_constants :
  ITG3200_ADDRESS_WRITE = 0xD0 /\ ITG3200_ADDRESS_READ = 0xD1
  /\ ITG3200_ADDRESS_WRITE = Z.shiftl 0x68 1
  /\ ITG3200_ADDRESS_READ = Z.lor (Z.shiftl 0x68 1) 1
  /\ ITG3200_RA_WHO_AM_I = 0x00 /\ ITG3200_RA_SMPLRT_DIV = 0x15
  /\ ITG3200_RA_DLPF_FS = 0x16 /\ ITG3200_RA_INT_CFG = 0x17
  /\ ITG3200_RA_INT_STATUS = 0x1A
  /\ ITG3200_RA_TEMP_OUT_H = 0x1B /\ ITG3200_RA_TEMP_OUT_L = 0x1C
  /\ [ ITG3200_RA_GYRO_XOUT_H; ITG3200_RA_GYRO_XOUT_L;
       ITG3200_RA_GYRO_YOUT_H; ITG3200_RA_GYRO_YOUT_L;
       ITG3200_RA_GYRO_ZOUT_H; ITG3200_RA_GYRO_ZOUT_L ]
     = [0x1D; 0x1E; 0x1F; 0x20; 0x21; 0x22]
  /\ ITG3200_RA_PWR_MGM = 0x3E
  /\ register_map
     = [0x00; 0x15; 0x16; 0x17; 0x1A; 0x1B; 0x1C;
        0x1D; 0x1E; 0x1F; 0x20; 0x21; 0x22; 0x3E]
  /\ forall (o : operation) (st : State),
       exists evs,
         log (bus (after_operation o st)) = log (bus st) ++ evs
         /\ Forall (fun e => Forall (fun r => In r register_map)
                               (tx_registers (tx e))) evs.
Proof.
  repeat (split; [reflexivity|]).
  intros [g|s|] st; cbn [after_operation].
  - apply getter_in_map.
  - apply setter_in_map.
  - unfold ITG3200Initialize.
    pose proof (setter_in_map (SetFullScaleRange ITG3200_FULLSCALE_2000) st) as H1.
    cbn [run_setter] in H1.
    destruct (ITG3200SetFullScaleRange ITG3200_FULLSCALE_2000 st) as [u st1].
    cbn [snd] in H1.
    exact (extends_trans _ _ _ _ H1
             (setter_in_map (SetClockSource ITG3200_CLOCK_PLL_XGYRO) st1)).
Qed.

(** * Field writes on a bus that works *)

Lemma write_bits_state (reg s l data : Z) (st : State) :
  faults (bus st) = [] ->
  let w := field_update (Z_of_uchar (regs (bus st) reg)) s l data in
  snd (statement (on_bus (I2CDeviceWriteBits reg s l data)) st)
  = mkState
      (mkBus (set_reg reg w (regs (bus st))) []
         (log (bus st) ++ [ev_ok (TxReadByte reg); ev_ok (TxWriteByte reg w)]))
      (ITG3200Buffer st).
Proof.
  intros H w. unfold statement, on_bus.
  rewrite WriteBits_reliable by exact H. reflexivity.
Qed.

Lemma write_bit_state (reg bit : Z) (value : bool) (st : State) :
  faults (bus st) = [] ->
  let w := bit_update (Z_of_uchar (regs (bus st) reg)) bit value in
  snd (statement (on_bus (I2CDeviceWriteBit reg bit value)) st)
  = mkState
      (mkBus (set_reg reg w (regs (bus st))) []
         (log (bus st) ++ [ev_ok (TxReadByte reg); ev_ok (TxWriteByte reg w)]))
      (ITG3200Buffer st).
Proof.
  intros H w. unfold statement, on_bus.
  rewrite WriteBit_reliable by exact H. reflexivity.
Qed.

Lemma read_bits_value (reg s l : Z) (st : State) :
  faults (bus st) = [] ->
  fst (on_bus (I2CDeviceReadBits reg s l) st)
  = Ok (Z.land (Z.shiftr (Z_of_uchar (regs (bus st) reg)) (field_shift s l))
          (Z.ones l)).
Proof.
  intros H. unfold on_bus. rewrite ReadBits_reliable by exact H. reflexivity.
Qed.

Lemma read_bit_value (reg bit : Z) (st : State) :
  faults (bus st) = [] ->
  fst (on_bus (I2CDeviceReadBit reg bit) st)
  = Ok (Z.testbit (Z_of_uchar (regs (bus st) reg)) bit).
Proof.
  intros H. unfold on_bus. rewrite ReadBit_reliable by exact H. reflexivity.
Qed.

(** A field read back through the driver after the driver wrote it. *)
Lemma field_get_after_set (reg s l data : Z) (st : State) :
  faults (bus st) = [] -> field_ok s l ->
  fst (on_bus (I2CDeviceReadBits reg s l)
         (snd (statement (on_bus (I2CDeviceWriteBits reg s l data)) st)))
  = Ok (data mod 2 ^ l).
Proof.
  intros H Hf. rewrite write_bits_state by exact H.
  rewrite read_bits_value by reflexivity. cbn [bus regs].
  rewrite set_reg_same. unfold field_update.
  rewrite field_read_after_write by exact Hf. reflexivity.
Qed.

(** A flag read through the driver after the driver wrote a flag of the
    same register. *)
Lemma flag_get_after_set (reg bit bit' : Z) (value : bool) (st : State) :
  faults (bus st) = [] -> 0 <= bit -> 0 <= bit' < 8 ->
  fst (on_bus (I2CDeviceReadBit reg bit')
         (snd (statement (on_bus (I2CDeviceWriteBit reg bit value)) st)))
  = Ok (if bit' =? bit then value
        else Z.testbit (Z_of_uchar (regs (bus st) reg)) bit').
Proof.
  intros H Hb Hb'. rewrite write_bit_state by exact H.
  rewrite read_bit_value by reflexivity. cbn [bus regs].
  rewrite set_reg_same. unfold bit_update.
  rewrite bit_write_bits by assumption. reflexivity.
Qed.

(** * Single-bit writes *)

(** C4.  On a bus that works, [I2CDeviceWriteBit] reads the register and
    writes it back once, with bit [bit] made [value] and every other bit as
    it was read, and touches no other register; so setting one of the flags
    of INT_CFG (the header declares six) leaves what the getters of the
    other flags return unchanged, and the flag set reads back as set. *)
Theorem write_bit_changes_one_bit (reg bit : Z) (value : bool) (st : State) :
  faults (bus st) = [] -> 0 <= bit < 8 ->
  let b := bus st in
  let b' := snd (I2CDeviceWriteBit reg bit value b) in
  fst (I2CDeviceWriteBit reg bit value b) = Ok tt
  /\ log b' = log b ++ [ev_ok (TxReadByte reg);
                        ev_ok (TxWriteByte reg (regs b' reg))]
  /\ (forall i, 0 <= i < 8 ->
        Z.testbit (Z_of_uchar (regs b' reg)) i
        = if i =? bit then value else Z.testbit (Z_of_uchar (regs b reg)) i)
  /\ (forall r, r <> reg -> regs b' r = regs b r)
  /\ (forall (f g : int_flag) (v : bool),
        f <> g ->
        fst (get_int_flag g (snd (set_int_flag f v st)))
        = fst (get_int_flag g st))
  /\ (forall (f : int_flag) (v : bool),
        fst (get_int_flag f (snd (set_int_flag f v st))) = Ok v).
Proof.
  intros H Hbit b b'.
  assert (Hf : faults b = []) by exact H.
  pose proof (WriteBit_reliable reg bit value b Hf) as E. cbv zeta in E.
  subst b'. rewrite E. cbn [fst snd regs log].
  rewrite set_reg_same.
  split; [reflexivity|]. split; [reflexivity|]. split; [|split; [|split]].
  - intros i Hi. unfold bit_update. apply bit_write_bits; lia.
  - intros r Hr. apply set_reg_other. exact Hr.
  - intros f g v Hfg.
    assert (Hg : fst (get_int_flag g st)
                 = Ok (Z.testbit (Z_of_uchar (regs (bus st) ITG3200_RA_INT_CFG))
                         (int_flag_bit g))).
    { destruct g; apply read_bit_value; exact H. }
    rewrite Hg.
    destruct f, g; try (exfalso; apply Hfg; reflexivity);
      cbn [set_int_flag get_int_flag];
      unfold ITG3200SetInterruptMode, ITG3200SetInterruptDrive,
        ITG3200SetInterruptLatch, ITG3200SetInterruptLatchClear,
        ITG3200SetIntDeviceReadyEnabled, ITG3200SetIntDataReadyEnabled,
        ITG3200GetInterruptMode, ITG3200getInterruptDrive,
        ITG3200GetInterruptLatch, ITG3200GetInterruptLatchClear,
        ITG3200GetIntDeviceReadyEnabled, ITG3200GetIntDataReadyEnabled;
      (rewrite flag_get_after_set by (exact H || (cbv; intuition discriminate)));
      reflexivity.
  - intros f v.
    destruct f; cbn [set_int_flag get_int_flag];
      unfold ITG3200SetInterruptMode, ITG3200SetInterruptDrive,
        ITG3200SetInterruptLatch, ITG3200SetInterruptLatchClear,
        ITG3200SetIntDeviceReadyEnabled, ITG3200SetIntDataReadyEnabled,
        ITG3200GetInterruptMode, ITG3200getInterruptDrive,
        ITG3200GetInterruptLatch, ITG3200GetInterruptLatchClear,
        ITG3200GetIntDeviceReadyEnabled, ITG3200GetIntDataReadyEnabled;
      (rewrite flag_get_after_set by (exact H || (cbv; intuition discriminate)));
      reflexivity.
Qed.

(** The theorem at INT_CFG holding 0x85, bit 5 being set: the latch flag
    reads back set and the polarity flag, bit 7, still reads set. *)
Lemma write_bit_changes_one_bit_witness :
  let st := device (set_reg ITG3200_RA_INT_CFG x85 cleared) in
  faults (bus st) = [] /\ 0 <= 5 < 8
  /\ regs (snd (I2CDeviceWriteBit ITG3200_RA_INT_CFG 5 true (bus st)))
       ITG3200_RA_INT_CFG = xa5
  /\ fst (get_int_flag ACTL (snd (set_int_flag LATCH_INT_EN true st)))
     = fst (get_int_flag ACTL st).
Proof.
  intros st.
  assert (H5 : 0 <= 5 < 8) by lia.
  pose proof (write_bit_changes_one_bit ITG3200_RA_INT_CFG 5 true st eq_refl H5)
    as (_ & _ & _ & _ & Hint & _).
  split; [reflexivity|]. split; [exact H5|]. split; [reflexivity|].
  apply Hint. discriminate.
Defined.

(** * Field writes *)

(** C5.  On a bus that works, for every register, every field that fits the
    byte and every value, [I2CDeviceWriteBits] followed by
    [I2CDeviceReadBits] of the same field returns the value modulo
    [2 ^ length]: the bits of the value beyond the field are dropped, and
    neither call fails. *)
Theorem write_bits_read_bits (reg bitStart length v : Z) (b : Bus) :
  faults b = [] -> field_ok bitStart length ->
  fst (I2CDeviceWriteBits reg bitStart length v b) = Ok tt
  /\ fst (I2CDeviceReadBits reg bitStart length
            (snd (I2CDeviceWriteBits reg bitStart length v b)))
     = Ok (v mod 2 ^ length).
Proof.
  intros H Hf.
  pose proof (WriteBits_reliable reg bitStart length v b H) as E. cbv zeta in E.
  rewrite E. cbn [fst snd]. split; [reflexivity|].
  rewrite ReadBits_reliable by reflexivity. cbn [fst regs].
  rewrite set_reg_same. unfold field_update.
  rewrite field_read_after_write by exact Hf. reflexivity.
Qed.

(** The theorem at the full-scale field of DLPF_FS (bits 4..3) holding
    0xFF, written with 6: the field reads back 6 mod 4 = 2. *)
Lemma write_bits_read_bits_witness :
  let b := mkBus (set_reg ITG3200_RA_DLPF_FS xff cleared) [] [] in
  faults b = [] /\ field_ok 4 2
  /\ fst (I2CDeviceReadBits ITG3200_RA_DLPF_FS 4 2
            (snd (I2CDeviceWriteBits ITG3200_RA_DLPF_FS 4 2 6 b)))
     = Ok 2.
Proof.
  intros b.
  assert (Hf : field_ok 4 2) by (unfold field_ok; lia).
  split; [reflexivity|]. split; [exact Hf|].
  exact (proj2 (write_bits_read_bits ITG3200_RA_DLPF_FS 4 2 6 b eq_refl Hf)).
Defined.

(** * Unvalidated fields *)

Lemma field_ok_FS_SEL : field_ok ITG3200_DF_FS_SEL_BIT ITG3200_DF_FS_SEL_LENGTH.
Proof. unfold field_ok. cbv. intuition discriminate. Qed.

Lemma field_ok_DLPF_CFG :
  field_ok ITG3200_DF_DLPF_CFG_BIT ITG3200_DF_DLPF_CFG_LENGTH.
Proof. unfold field_ok. cbv. intuition discriminate. Qed.

Lemma field_ok_CLK_SEL : field_ok ITG3200_PWR_CLK_SEL_BIT ITG3200_PWR_CLK_SEL_LENGTH.
Proof. unfold field_ok. cbv. intuition discriminate. Qed.

(** C8.  On a bus that works, the setters of the full-scale range, the
    filter bandwidth and the clock source accept every value: each performs
    its read and its write, refusing nothing, and the field then reads back
    as the value modulo the field's size (4, 8 and 8), whether the code is a
    defined one or a reserved one. *)
Theorem setters_forward_raw_values (v : Z) (st : State) :
  faults (bus st) = [] ->
  let old r := Z_of_uchar (regs (bus st) r) in
  let rmw r w := [ev_ok (TxReadByte r); ev_ok (TxWriteByte r w)] in
  (let st' := snd (ITG3200SetFullScaleRange v st) in
   log (bus st')
   = log (bus st)
     ++ rmw ITG3200_RA_DLPF_FS
          (field_update (old ITG3200_RA_DLPF_FS) ITG3200_DF_FS_SEL_BIT
             ITG3200_DF_FS_SEL_LENGTH v)
   /\ fst (ITG3200GetFullScaleRange st') = Ok (v mod 4))
  /\ (let st' := snd (ITG3200SetDLPFBandwidth v st) in
      log (bus st')
      = log (bus st)
        ++ rmw ITG3200_RA_DLPF_FS
             (field_update (old ITG3200_RA_DLPF_FS) ITG3200_DF_DLPF_CFG_BIT
                ITG3200_DF_DLPF_CFG_LENGTH v)
      /\ fst (ITG3200GetDLPFBandwidth st') = Ok (v mod 8))
  /\ (let st' := snd (ITG3200SetClockSource v st) in
      log (bus st')
      = log (bus st)
        ++ rmw ITG3200_RA_PWR_MGM
             (field_update (old ITG3200_RA_PWR_MGM) ITG3200_PWR_CLK_SEL_BIT
                ITG3200_PWR_CLK_SEL_LENGTH v)
      /\ fst (ITG3200GetClockSource st') = Ok (v mod 8)).
Proof.
  intros H old rmw. split; [|split]; cbv zeta; split.
  - unfold ITG3200SetFullScaleRange. rewrite write_bits_state by exact H. reflexivity.
  - unfold ITG3200SetFullScaleRange, ITG3200GetFullScaleRange.
    rewrite field_get_after_set by (exact H || apply field_ok_FS_SEL). reflexivity.
  - unfold ITG3200SetDLPFBandwidth. rewrite write_bits_state by exact H. reflexivity.
  - unfold ITG3200SetDLPFBandwidth, ITG3200GetDLPFBandwidth.
    rewrite field_get_after_set by (exact H || apply field_ok_DLPF_CFG). reflexivity.
  - unfold ITG3200SetClockSource. rewrite write_bits_state by exact H. reflexivity.
  - unfold ITG3200SetClockSource, ITG3200GetClockSource.
    rewrite field_get_after_set by (exact H || apply field_ok_CLK_SEL). reflexivity.
Qed.

(** The theorem at the reserved code 7 on a cleared device: the filter field
    and the clock field read back 7, the full-scale field 7 mod 4 = 3. *)
Lemma setters_forward_raw_values_witness :
  let st := device cleared in
  faults (bus st) = []
  /\ fst (ITG3200GetFullScaleRange (snd (ITG3200SetFullScaleRange 7 st))) = Ok 3
  /\ fst (ITG3200GetDLPFBandwidth (snd (ITG3200SetDLPFBandwidth 7 st))) = Ok 7
  /\ fst (ITG3200GetClockSource (snd (ITG3200SetClockSource 7 st))) = Ok 7.
Proof.
  intros st.
  pose proof (setters_forward_raw_values 7 st eq_refl)
    as ((_ & Hfs) & (_ & Hbw) & (_ & Hclk)).
  split; [reflexivity|]. split; [exact Hfs|]. split; [exact Hbw | exact Hclk].
Defined.

(** * Initialization *)

(** The bytes the two field writes of the initialization store. *)
Lemma full_scale_2000_byte (old : byte) :
  field_update (Z_of_uchar old) ITG3200_DF_FS_SEL_BIT ITG3200_DF_FS_SEL_LENGTH
    ITG3200_FULLSCALE_2000
  = uchar_of_Z (Z.lor (Z.land (Z_of_uchar old) 0xE7) 0x18).
Proof. destruct old; reflexivity. Qed.

Lemma clock_pll_xgyro_byte (old : byte) :
  field_update (Z_of_uchar old) ITG3200_PWR_CLK_SEL_BIT ITG3200_PWR_CLK_SEL_LENGTH
    ITG3200_CLOCK_PLL_XGYRO
  = uchar_of_Z (Z.lor (Z.land (Z_of_uchar old) 0xF8) 0x01).
Proof. destruct old; reflexivity. Qed.

Lemma testbit_masked_byte (old : byte) (keep put i : Z) :
  0 <= i < 8 ->
  Z.testbit (Z_of_uchar (uchar_of_Z (Z.lor (Z.land (Z_of_uchar old) keep) put))) i
  = Z.testbit (Z_of_uchar old) i && Z.testbit keep i || Z.testbit put i.
Proof.
  intros Hi. rewrite testbit_uchar_of_Z by exact Hi.
  rewrite Z.lor_spec, Z.land_spec. reflexivity.
Qed.

(** C3.  On a bus that works, whatever the registers hold, the
    initialization issues two read-modify-writes and nothing else: first
    DLPF_FS is read and written back with bits 4..3 set to 0b11 and its
    other bits as read, then PWR_MGM is read and written back with bits 2..0
    set to 0b001 and its other bits as read; no other register changes. *)
Theorem initialize_two_field_writes (st : State) :
  faults (bus st) = [] ->
  let st' := snd (ITG3200Initialize st) in
  let dlpf_fs := Z_of_uchar (regs (bus st) ITG3200_RA_DLPF_FS) in
  let pwr_mgm := Z_of_uchar (regs (bus st) ITG3200_RA_PWR_MGM) in
  let w1 := uchar_of_Z (Z.lor (Z.land dlpf_fs 0xE7) 0x18) in
  let w2 := uchar_of_Z (Z.lor (Z.land pwr_mgm 0xF8) 0x01) in
  log (bus st')
  = log (bus st)
    ++ [ ev_ok (TxReadByte ITG3200_RA_DLPF_FS);
         ev_ok (TxWriteByte ITG3200_RA_DLPF_FS w1);
         ev_ok (TxReadByte ITG3200_RA_PWR_MGM);
         ev_ok (TxWriteByte ITG3200_RA_PWR_MGM w2) ]
  /\ (forall i, 0 <= i < 8 ->
        Z.testbit (Z_of_uchar w1) i
        = if (3 <=? i) && (i <=? 4) then true else Z.testbit dlpf_fs i)
  /\ (forall i, 0 <= i < 8 ->
        Z.testbit (Z_of_uchar w2) i
        = if i <=? 2 then i =? 0 else Z.testbit pwr_mgm i)
  /\ regs (bus st') ITG3200_RA_DLPF_FS = w1
  /\ regs (bus st') ITG3200_RA_PWR_MGM = w2
  /\ (forall r, r <> ITG3200_RA_DLPF_FS -> r <> ITG3200_RA_PWR_MGM ->
        regs (bus st') r = regs (bus st) r)
  /\ fst (ITG3200GetFullScaleRange st') = Ok 0x03
  /\ fst (ITG3200GetClockSource st') = Ok 0x01.
Proof.
  intros H st' dlpf_fs pwr_mgm w1 w2.
  assert (E : st'
              = mkState
                  (mkBus
                     (set_reg ITG3200_RA_PWR_MGM w2
                        (set_reg ITG3200_RA_DLPF_FS w1 (regs (bus st))))
                     []
                     (log (bus st)
                      ++ [ ev_ok (TxReadByte ITG3200_RA_DLPF_FS);
                           ev_ok (TxWriteByte ITG3200_RA_DLPF_FS w1);
                           ev_ok (TxReadByte ITG3200_RA_PWR_MGM);
                           ev_ok (TxWriteByte ITG3200_RA_PWR_MGM w2) ]))
                  (ITG3200Buffer st)).
  { subst st'. unfold ITG3200Initialize.
    pose proof (write_bits_state ITG3200_RA_DLPF_FS ITG3200_DF_FS_SEL_BIT
                  ITG3200_DF_FS_SEL_LENGTH ITG3200_FULLSCALE_2000 st H) as E1.
    cbv zeta in E1. rewrite full_scale_2000_byte in E1. fold dlpf_fs w1 in E1.
    unfold ITG3200SetFullScaleRange at 1.
    destruct (statement _ st) as [u st1]. cbn [snd] in E1. subst st1.
    unfold ITG3200SetClockSource. rewrite write_bits_state by reflexivity.
    cbn [bus regs log ITG3200Buffer].
    rewrite (set_reg_other ITG3200_RA_DLPF_FS ITG3200_RA_PWR_MGM) by discriminate.
    rewrite clock_pll_xgyro_byte. fold pwr_mgm w2.
    rewrite <- app_assoc. reflexivity. }
  rewrite E. cbn [bus regs log].
  split; [reflexivity|]. split; [|split; [|split; [|split; [|split; [|split]]]]].
  - intros i Hi. subst w1. unfold dlpf_fs. rewrite testbit_masked_byte by exact Hi.
    assert (Hc : i = 0 \/ i = 1 \/ i = 2 \/ i = 3 \/ i = 4 \/ i = 5 \/ i = 6 \/ i = 7)
      by lia.
    destruct Hc as [->|[->|[->|[->|[->|[->|[->| ->]]]]]]]; cbn;
      rewrite ?andb_true_r, ?orb_false_r, ?orb_true_r; reflexivity.
  - intros i Hi. subst w2. unfold pwr_mgm. rewrite testbit_masked_byte by exact Hi.
    assert (Hc : i = 0 \/ i = 1 \/ i = 2 \/ i = 3 \/ i = 4 \/ i = 5 \/ i = 6 \/ i = 7)
      by lia.
    destruct Hc as [->|[->|[->|[->|[->|[->|[->| ->]]]]]]]; cbn;
      rewrite ?andb_true_r, ?andb_false_r, ?orb_false_r, ?orb_true_r; reflexivity.
  - rewrite set_reg_other by discriminate. apply set_reg_same.
  - apply set_reg_same.
  - intros r H1 H2. rewrite !set_reg_other by assumption. reflexivity.
  - unfold ITG3200GetFullScaleRange. rewrite read_bits_value by reflexivity.
    cbn [bus regs]. rewrite set_reg_other by discriminate. rewrite set_reg_same.
    subst w1. destruct (regs (bus st) ITG3200_RA_DLPF_FS); reflexivity.
  - unfold ITG3200GetClockSource. rewrite read_bits_value by reflexivity.
    cbn [bus regs]. rewrite set_reg_same.
    subst w2. destruct (regs (bus st) ITG3200_RA_PWR_MGM); reflexivity.
Qed.

(** The theorem at a device whose DLPF_FS holds 0x05 and PWR_MGM 0x60:
    the writes store 0x1D and 0x61. *)
Lemma initialize_two_field_writes_witness :
  let st := device (set_reg ITG3200_RA_DLPF_FS x05
                      (set_reg ITG3200_RA_PWR_MGM x60 cleared)) in
  faults (bus st) = []
  /\ log (bus (snd (ITG3200Initialize st)))
     = [ ev_ok (TxReadByte ITG3200_RA_DLPF_FS);
         ev_ok (TxWriteByte ITG3200_RA_DLPF_FS x1d);
         ev_ok (TxReadByte ITG3200_RA_PWR_MGM);
         ev_ok (TxWriteByte ITG3200_RA_PWR_MGM x61) ].
Proof.
  intros st. split; [reflexivity|].
  exact (proj1 (initialize_two_field_writes st eq_refl)).
Defined.

(** * Field descriptors *)

(** C6, as the specification words it, fails at the device-ID field: its
    most significant bit is bit 6 and it is 6 bits wide, so position plus
    width is 12. *)
Lemma devid_position_plus_width :
  In devid_field descriptors
  /\ d_bit devid_field + d_width devid_field = 12
  /\ ~ (Forall position_plus_width_le_8 descriptors
        /\ ForallOrdPairs fields_disjoint descriptors).
Proof.
  split; [left; reflexivity|]. split; [reflexivity|].
  intros [H _]. inversion H as [|d l Hd Hl]; subst.
  cbv -[Z.le Z.lt Z.add Z.sub] in Hd. lia.
Qed.

(** C6, amended.  Every field the driver declares lies inside its byte when
    counted down from its most significant bit: its width is at least 1 and
    at most position + 1, and its position at most 7 (so its lowest bit,
    position - width + 1, plus its width is at most 8); no two fields of one
    register share a bit; and every field but the device ID also has
    position + width at most 8. *)
Theorem descriptors_fit_and_are_disjoint :
  Forall (fun d => field_ok (d_bit d) (d_width d)) descriptors
  /\ Forall (fun d => 0 <= field_shift (d_bit d) (d_width d)
                      /\ field_shift (d_bit d) (d_width d) + d_width d <= 8)
       descriptors
  /\ ForallOrdPairs fields_disjoint descriptors
  /\ Forall (fun d => d = devid_field \/ position_plus_width_le_8 d) descriptors.
Proof.
  unfold descriptors. split; [|split; [|split]].
  - repeat (apply Forall_cons; [cbv -[Z.le Z.lt Z.add Z.sub]; lia|]). apply Forall_nil.
  - repeat (apply Forall_cons; [cbv -[Z.le Z.lt Z.add Z.sub]; lia|]). apply Forall_nil.
  - repeat (apply FOP_cons;
            [repeat (apply Forall_cons; [disjoint_fields|]); apply Forall_nil|]).
    apply FOP_nil.
  - apply Forall_cons; [left; reflexivity|].
    repeat (apply Forall_cons;
            [right; cbv -[Z.le Z.lt Z.add Z.sub]; lia|]).
    apply Forall_nil.
Qed.

(** * Bus failures *)

Lemma ReadByte_failing (reg : Z) (b : Bus) (fs : list bool) :
  faults b = true :: fs ->
  I2CDeviceReadByte reg b
  = (BusTransactionFailure,
     mkBus (regs b) fs (log b ++ [ev_failed (TxReadByte reg)])).
Proof.
  intros H. unfold I2CDeviceReadByte, acc_bind, Transport.readByte.
  rewrite (attempt_failing _ _ fs) by exact H. reflexivity.
Qed.

Lemma WriteByte_failing (reg data : Z) (b : Bus) (fs : list bool) :
  faults b = true :: fs ->
  I2CDeviceWriteByte reg data b
  = (BusTransactionFailure,
     mkBus (regs b) fs (log b ++ [ev_failed (TxWriteByte reg (uchar_of_Z data))])).
Proof.
  intros H. unfold I2CDeviceWriteByte, Transport.writeByte.
  rewrite (attempt_failing _ _ fs) by exact H. reflexivity.
Qed.

(** Accessor code that begins by reading [reg] stops there when that read
    fails. *)
Lemma read_first_failing {A} (reg : Z) (k : Z -> Acc A) (b : Bus) (fs : list bool) :
  faults b = true :: fs ->
  acc_bind (I2CDeviceReadByte reg) k b
  = (BusTransactionFailure,
     mkBus (regs b) fs (log b ++ [ev_failed (TxReadByte reg)])).
Proof.
  intros H. unfold acc_bind at 1. rewrite (ReadByte_failing _ _ fs) by exact H.
  reflexivity.
Qed.

Lemma burst_failing (reg : Z) (count : nat) (st : State) (fs : list bool) :
  faults (bus st) = true :: fs ->
  burst_into_buffer reg count st
  = (BusTransactionFailure,
     mkState
       (mkBus (regs (bus st)) fs
          (log (bus st) ++ [ev_failed (TxReadBytes reg count)]))
       (ITG3200Buffer st)).
Proof.
  intros H. rewrite burst_into_buffer_eq. unfold next_ok. rewrite H. reflexivity.
Qed.

Lemma on_bus_read_first_failing {A} (reg : Z) (k : Z -> Acc A)
      (st : State) (fs : list bool) :
  faults (bus st) = true :: fs ->
  fst (on_bus (acc_bind (I2CDeviceReadByte reg) k) st) = BusTransactionFailure
  /\ stopped_at (TxReadByte reg) fs st
       (snd (on_bus (acc_bind (I2CDeviceReadByte reg) k) st)).
Proof.
  intros H. unfold on_bus. rewrite (read_first_failing _ _ _ fs) by exact H.
  repeat split.
Qed.

Lemma setter_stopped (s : setter) (st : State) (fs : list bool) :
  faults (bus st) = true :: fs ->
  exists t, stopped_at t fs st (snd (run_setter s st))
            /\ is_read t = read_modify_write s.
Proof.
  intros H.
  destruct s; cbn [run_setter read_modify_write];
    try (eexists; split;
         [ refine (proj2 (on_bus_read_first_failing _ _ st fs H)) | reflexivity ]).
  exists (TxWriteByte ITG3200_RA_SMPLRT_DIV (uchar_of_Z rate)). split; [|reflexivity].
  unfold ITG3200SetRate, statement, on_bus. cbn [snd].
  rewrite (WriteByte_failing _ _ _ fs) by exact H. repeat split.
Qed.

Lemma getter_stopped (g : getter) (st : State) (fs : list bool) :
  faults (bus st) = true :: fs ->
  exists t, stopped_at t fs st (after_getter g st) /\ is_read t = true.
Proof.
  intros H. destruct g as [f|f|s|]; cbn [after_getter].
  - destruct f; cbn [get_field];
      try (eexists; split;
           [ refine (proj2 (on_bus_read_first_failing _ _ st fs H)) | reflexivity ]).
    exists (TxReadByte ITG3200_RA_SMPLRT_DIV). split; [|reflexivity].
    unfold ITG3200GetRate, on_bus.
    rewrite (ReadByte_failing _ _ fs) by exact H. repeat split.
  - destruct f; cbn [get_flag]; eexists;
      (split; [ refine (proj2 (on_bus_read_first_failing _ _ st fs H))
              | reflexivity ]).
  - exists (TxReadBytes (sample_register s) 2). split; [|reflexivity].
    rewrite sample_state, (burst_failing _ _ _ fs) by exact H. repeat split.
  - exists (TxReadBytes ITG3200_RA_GYRO_XOUT_H 6). split; [|reflexivity].
    rewrite rotation_state, (burst_failing _ _ _ fs) by exact H. repeat split.
Qed.

(** C2, as the specification words it, fails: the temperature read whose
    burst read fails returns 0x1234, the decode of what the buffer held
    before, just as a read that succeeds on registers holding (0x12, 0x34)
    does, so no value of its result marks the failure; a setter returns
    nothing; and the initialization whose first read fails goes on to the
    second field write. *)
Lemma bus_failure_not_surfaced :
  let st_fail :=
    faulty_device (set_reg ITG3200_RA_TEMP_OUT_L x64 cleared) [true]
      [x12; x34; x00; x00; x00; x00] in
  let st_ok :=
    device (set_reg ITG3200_RA_TEMP_OUT_H x12
              (set_reg ITG3200_RA_TEMP_OUT_L x34 cleared)) in
  added ITG3200GetTemperature st_fail
  = [ev_failed (TxReadBytes ITG3200_RA_TEMP_OUT_H 2)]
  /\ fst (ITG3200GetTemperature st_fail) = 0x1234
  /\ added ITG3200GetTemperature st_ok
     = [ev_ok (TxReadBytes ITG3200_RA_TEMP_OUT_H 2)]
  /\ fst (ITG3200GetTemperature st_ok) = 0x1234
  /\ ~ surfaces_failure ITG3200GetTemperature
  /\ ~ surfaces_failure (ITG3200SetRate 7)
  /\ log (bus (snd (ITG3200Initialize st_fail)))
     = [ ev_failed (TxReadByte ITG3200_RA_DLPF_FS);
         ev_ok (TxReadByte ITG3200_RA_PWR_MGM);
         ev_ok (TxWriteByte ITG3200_RA_PWR_MGM x01) ].
Proof.
  intros st_fail st_ok.
  split; [reflexivity|]. split; [reflexivity|].
  split; [reflexivity|]. split; [reflexivity|].
  split; [|split; [|reflexivity]].
  - intros [is_error H].
    pose proof (H st_fail) as H1. pose proof (H st_ok) as H2.
    vm_compute in H1, H2. congruence.
  - intros [is_error H].
    pose proof (H st_fail) as H1. pose proof (H st_ok) as H2.
    vm_compute in H1, H2. congruence.
Qed.

(** A read-modify-write whose read succeeds and whose write fails leaves
    the register as it was as well. *)
Lemma failed_write_changes_nothing (reg s l data : Z) (b : Bus) (fs : list bool) :
  faults b = false :: true :: fs ->
  let w := field_update (Z_of_uchar (regs b reg)) s l data in
  I2CDeviceWriteBits reg s l data b
  = (BusTransactionFailure,
     mkBus (regs b) fs
       (log b ++ [ev_ok (TxReadByte reg); ev_failed (TxWriteByte reg w)])).
Proof.
  intros H w. destruct b as [rf fl lg]. cbn [faults] in H. subst fl.
  unfold I2CDeviceWriteBits, acc_bind, I2CDeviceReadByte, acc_bind,
    Transport.readByte, I2CDeviceWriteByte, Transport.writeByte, attempt, acc_ret.
  cbn [faults regs log negb]. rewrite <- app_assoc. reflexivity.
Qed.

(** * Further properties of the driver *)

(** ** Bytes and fields, bit by bit *)

Lemma byte_ext (a b : byte) :
  (forall i, 0 <= i < 8 ->
             Z.testbit (Z_of_uchar a) i = Z.testbit (Z_of_uchar b) i) ->
  a = b.
Proof.
  intros H. rewrite <- (uchar_of_Z_of_uchar a), <- (uchar_of_Z_of_uchar b).
  f_equal. apply Z.bits_inj'. intros i Hi.
  destruct (Z.ltb_spec i 8).
  - apply H. lia.
  - rewrite !testbit_uchar_high by lia. reflexivity.
Qed.

Lemma field_update_outside (old v s l i : Z) :
  field_ok s l -> 0 <= i < 8 -> i < field_shift s l \/ s < i ->
  Z.testbit (Z_of_uchar (field_update old s l v)) i = Z.testbit old i.
Proof.
  intros Hf Hi Hout. unfold field_update. rewrite field_write_bits by assumption.
  destruct (Z.leb_spec (field_shift s l) i), (Z.leb_spec i s); cbn; try reflexivity.
  lia.
Qed.

Lemma field_update_inside (old v s l i : Z) :
  field_ok s l -> field_shift s l <= i <= s ->
  Z.testbit (Z_of_uchar (field_update old s l v)) i
  = Z.testbit v (i - field_shift s l).
Proof.
  intros Hf Hin. pose proof Hf as (Hl & Hs & H7). unfold field_shift in *.
  unfold field_update. rewrite field_write_bits by (assumption || lia).
  unfold field_shift.
  destruct (Z.leb_spec (s - l + 1) i), (Z.leb_spec i s); cbn; try reflexivity; lia.
Qed.

Lemma bit_update_bits (old bit i : Z) (value : bool) :
  0 <= bit -> 0 <= i < 8 ->
  Z.testbit (Z_of_uchar (bit_update old bit value)) i
  = if i =? bit then value else Z.testbit old i.
Proof. intros. unfold bit_update. apply bit_write_bits; assumption. Qed.

(** A field read depends on the bits of the field only. *)
Lemma field_read_ext (x y s l : Z) :
  field_ok s l ->
  (forall i, field_shift s l <= i <= s -> Z.testbit x i = Z.testbit y i) ->
  Z.land (Z.shiftr x (field_shift s l)) (Z.ones l)
  = Z.land (Z.shiftr y (field_shift s l)) (Z.ones l).
Proof.
  intros (Hl & Hs & H7) H. unfold field_shift in *.
  rewrite !Z.land_ones by lia. apply Z.bits_inj'. intros i Hi.
  rewrite !Z.testbit_mod_pow2 by lia.
  destruct (Z.ltb_spec i l); cbn; [|reflexivity].
  rewrite !Z.shiftr_spec by lia. apply H. lia.
Qed.

Lemma field_read_div_mod (x k l : Z) :
  0 <= k -> 0 <= l ->
  Z.land (Z.shiftr x k) (Z.ones l) = (x / 2 ^ k) mod 2 ^ l.
Proof.
  intros Hk Hl. rewrite Z.land_ones by exact Hl.
  rewrite Z.shiftr_div_pow2 by exact Hk. reflexivity.
Qed.

(** ** Setters and getters on a bus that works *)

Lemma setter_field_ok (s : setter) :
  field_ok (d_bit (setter_descriptor s)) (d_width (setter_descriptor s)).
Proof. destruct s; cbv -[Z.le Z.lt Z.add Z.sub]; lia. Qed.

Lemma field_getter_field_ok (f : field_getter) :
  field_ok (d_bit (field_getter_descriptor f)) (d_width (field_getter_descriptor f)).
Proof. destruct f; cbv -[Z.le Z.lt Z.add Z.sub]; lia. Qed.

Lemma setter_reliable (s : setter) (st : State) :
  faults (bus st) = [] ->
  let reg := d_reg (setter_descriptor s) in
  let w := setter_byte s (regs (bus st) reg) in
  snd (run_setter s st)
  = mkState
      (mkBus (set_reg reg w (regs (bus st))) []
         (log (bus st) ++ setter_events s w))
      (ITG3200Buffer st).
Proof.
  intros H reg w. subst reg w.
  destruct s; cbn [run_setter];
    try (apply write_bits_state; exact H);
    try (apply write_bit_state; exact H).
  unfold ITG3200SetRate, statement, on_bus.
  rewrite WriteByte_reliable by exact H. reflexivity.
Qed.

Lemma get_field_reliable (f : field_getter) (st : State) :
  faults (bus st) = [] ->
  let d := field_getter_descriptor f in
  fst (get_field f st)
  = Ok (Z.land (Z.shiftr (Z_of_uchar (regs (bus st) (d_reg d)))
                  (field_shift (d_bit d) (d_width d)))
          (Z.ones (d_width d))).
Proof.
  intros H d. subst d.
  destruct f; cbn [get_field]; try (apply read_bits_value; exact H).
  unfold ITG3200GetRate, on_bus. rewrite ReadByte_reliable by exact H.
  cbn [fst field_getter_descriptor d_reg d_bit d_width]. f_equal.
  pose proof (Z_of_uchar_range (regs (bus st) ITG3200_RA_SMPLRT_DIV)) as Hr.
  change (field_shift 7 8) with 0. rewrite Z.shiftr_0_r, Z.land_ones by lia.
  symmetry. apply Z.mod_small. change (2 ^ 8) with 256. exact Hr.
Qed.

Lemma get_flag_reliable (f : flag_getter) (st : State) :
  faults (bus st) = [] ->
  let d := flag_getter_descriptor f in
  fst (get_flag f st)
  = Ok (Z.testbit (Z_of_uchar (regs (bus st) (d_reg d))) (d_bit d)).
Proof.
  intros H d. subst d. destruct f; apply read_bit_value; exact H.
Qed.

(** Outside its field a setter stores the bits it read. *)
Lemma setter_byte_outside (s : setter) (old : byte) (i : Z) :
  0 <= i < 8 -> ~ in_field (setter_descriptor s) i ->
  Z.testbit (Z_of_uchar (setter_byte s old)) i = Z.testbit (Z_of_uchar old) i.
Proof.
  intros Hi Hout. unfold in_field in Hout.
  pose proof (setter_field_ok s) as Hf.
  assert (Ho : i < field_shift (d_bit (setter_descriptor s))
                     (d_width (setter_descriptor s))
               \/ d_bit (setter_descriptor s) < i) by lia.
  destruct s; cbn [setter_byte];
    try (apply field_update_outside; assumption);
    try (rewrite bit_update_bits by (assumption || (cbv; discriminate));
         cbn [setter_descriptor d_bit d_width] in *;
         unfold field_shift in Ho;
         match goal with
         | |- (if i =? ?b then _ else _) = _ =>
             destruct (Z.eqb_spec i b) as [E|E];
             [exfalso; revert Ho; rewrite E; cbv -[Z.le Z.lt Z.add Z.sub]; lia
             | reflexivity]
         end).
  exfalso. cbv -[Z.le Z.lt Z.add Z.sub] in Ho. lia.
Qed.

(** Inside its field what a setter stores does not depend on what it read. *)
Lemma setter_byte_inside (s : setter) (old old' : byte) (i : Z) :
  0 <= i < 8 -> in_field (setter_descriptor s) i ->
  Z.testbit (Z_of_uchar (setter_byte s old)) i
  = Z.testbit (Z_of_uchar (setter_byte s old')) i.
Proof.
  intros Hi Hin. unfold in_field in Hin.
  pose proof (setter_field_ok s) as Hf.
  destruct s; cbn [setter_byte]; try reflexivity;
    try (rewrite !field_update_inside by assumption; reflexivity);
    rewrite !bit_update_bits by (assumption || (cbv; discriminate));
    cbn [setter_descriptor d_bit d_width] in *;
    unfold field_shift in Hin;
    match goal with
    | |- (if i =? ?b then _ else _) = _ =>
        destruct (Z.eqb_spec i b) as [E|E];
        [reflexivity
        | exfalso; apply E; revert Hin; cbv -[Z.le Z.lt Z.add Z.sub]; lia]
    end.
Qed.

Lemma ReadByte_eq (reg : Z) (b : Bus) :
  I2CDeviceReadByte reg b
  = (if next_ok b then Ok (Z_of_uchar (regs b reg)) else BusTransactionFailure,
     mkBus (regs b) (tl (faults b))
       (log b ++ [mkEvent (TxReadByte reg) (next_ok b)])).
Proof.
  unfold I2CDeviceReadByte, acc_bind, Transport.readByte. rewrite attempt_eq.
  destruct (next_ok b); reflexivity.
Qed.

Lemma ReadBits_eq (reg s l : Z) (b : Bus) :
  fst (I2CDeviceReadBits reg s l b)
  = if next_ok b
    then Ok (Z.land (Z.shiftr (Z_of_uchar (regs b reg)) (field_shift s l))
               (Z.ones l))
    else BusTransactionFailure.
Proof.
  unfold I2CDeviceReadBits, acc_bind. rewrite ReadByte_eq.
  destruct (next_ok b); reflexivity.
Qed.

(** ** The sample rate divider *)

(** X1.  On a bus that works, [ITG3200SetRate] issues one write of
    SMPLRT_DIV and no read, storing the low eight bits of its argument
    whatever the register held, and [ITG3200GetRate] then returns the
    argument modulo 256; no other register changes. *)
Theorem rate_round_trip (rate : Z) (st : State) :
  faults (bus st) = [] ->
  let st' := snd (ITG3200SetRate rate st) in
  log (bus st')
  = log (bus st) ++ [ev_ok (TxWriteByte ITG3200_RA_SMPLRT_DIV (uchar_of_Z rate))]
  /\ fst (ITG3200GetRate st') = Ok (rate mod 256)
  /\ (forall r, r <> ITG3200_RA_SMPLRT_DIV -> regs (bus st') r = regs (bus st) r).
Proof.
  intros H st'.
  pose proof (setter_reliable (SetRate rate) st H) as E.
  cbv zeta in E. cbn [run_setter setter_descriptor d_reg setter_byte] in E.
  subst st'. rewrite E. cbn [bus log regs].
  split; [reflexivity|]. split.
  - unfold ITG3200GetRate, on_bus. rewrite ReadByte_reliable by reflexivity.
    cbn [fst bus regs]. rewrite set_reg_same, Z_of_uchar_of_Z. reflexivity.
  - intros r Hr. apply set_reg_other. exact Hr.
Qed.

Lemma rate_round_trip_witness :
  let st := device (set_reg ITG3200_RA_SMPLRT_DIV xff cleared) in
  faults (bus st) = []
  /\ fst (ITG3200GetRate (snd (ITG3200SetRate 263 st))) = Ok 7.
Proof.
  intros st. split; [reflexivity|].
  pose proof (rate_round_trip 263 st eq_refl) as (_ & Hv & _).
  exact Hv.
Defined.

(** ** What the field getters return *)

(** X2.  On a bus that works, a field getter returns a value computed
    from its register by division: the device ID is (WHO_AM_I / 2) mod 64,
    the rate is SMPLRT_DIV, the full-scale range (DLPF_FS / 8) mod 4, the
    filter bandwidth DLPF_FS mod 8, the clock source PWR_MGM mod 8; so the
    values lie below 64, 256, 4, 8 and 8. *)
Theorem field_getter_values (f : field_getter) (st : State) :
  faults (bus st) = [] ->
  fst (get_field f st) = Ok (field_getter_value f (regs (bus st)))
  /\ 0 <= field_getter_value f (regs (bus st)) < field_getter_bound f.
Proof.
  intros H. split.
  - rewrite get_field_reliable by exact H. cbv zeta. f_equal.
    destruct f; cbn [field_getter_descriptor d_reg d_bit d_width field_getter_value];
      rewrite field_read_div_mod by (cbv; discriminate).
    + reflexivity.
    + change (2 ^ field_shift 7 8) with 1. rewrite Z.div_1_r.
      apply Z.mod_small. change (2 ^ 8) with 256. apply Z_of_uchar_range.
    + reflexivity.
    + change (2 ^ field_shift ITG3200_DF_DLPF_CFG_BIT ITG3200_DF_DLPF_CFG_LENGTH)
        with 1.
      rewrite Z.div_1_r. reflexivity.
    + change (2 ^ field_shift ITG3200_PWR_CLK_SEL_BIT ITG3200_PWR_CLK_SEL_LENGTH)
        with 1.
      rewrite Z.div_1_r. reflexivity.
  - destruct f; cbn [field_getter_value field_getter_bound];
      try (apply Z.mod_pos_bound; lia).
    apply Z_of_uchar_range.
Qed.

(** The theorem at WHO_AM_I holding 0x69: the device ID read is 0x34. *)
Lemma field_getter_values_witness :
  let st := device (set_reg ITG3200_RA_WHO_AM_I x69 cleared) in
  faults (bus st) = [] /\ fst (ITG3200GetDeviceID st) = Ok 0x34.
Proof.
  intros st. split; [reflexivity|].
  exact (proj1 (field_getter_values DeviceID st eq_refl)).
Defined.

(** ** Round trips of the other pairs *)

(** X3.  On a bus that works, the device ID written by
    [ITG3200SetDeviceID] reads back through [ITG3200GetDeviceID] modulo 64,
    bits 7 and 0 of WHO_AM_I staying as they were, and the sleep flag and
    each standby flag read back as set. *)
Theorem device_id_and_power_flags_round_trip (st : State) :
  faults (bus st) = [] ->
  (forall id : Z,
      let st' := snd (ITG3200SetDeviceID id st) in
      fst (ITG3200GetDeviceID st') = Ok (id mod 64)
      /\ (forall i, i = 0 \/ i = 7 ->
            Z.testbit (Z_of_uchar (regs (bus st') ITG3200_RA_WHO_AM_I)) i
            = Z.testbit (Z_of_uchar (regs (bus st) ITG3200_RA_WHO_AM_I)) i))
  /\ (forall (f : pwr_flag) (v : bool),
         fst (get_pwr_flag f (snd (set_pwr_flag f v st))) = Ok v).
Proof.
  intros H. split.
  - intros id st'. split.
    + subst st'. unfold ITG3200SetDeviceID, ITG3200GetDeviceID.
      rewrite field_get_after_set
        by (exact H || (cbv -[Z.le Z.lt Z.add Z.sub]; lia)).
      reflexivity.
    + intros i Hi. subst st'.
      pose proof (setter_reliable (SetDeviceID id) st H) as E.
      cbv zeta in E. cbn [run_setter] in E. rewrite E. cbn [bus regs].
      cbn [setter_descriptor d_reg]. rewrite set_reg_same.
      apply setter_byte_outside; [lia|].
      unfold in_field. cbv -[Z.le Z.lt Z.add Z.sub]. lia.
  - intros f v.
    destruct f; cbn [set_pwr_flag get_pwr_flag];
      unfold ITG3200SetSleepEnabled, ITG3200SetStandbyXEnabled,
        ITG3200SetStandbyYEnabled, ITG3200SetStandbyZEnabled,
        ITG3200GetSleepEnabled, ITG3200GetStandbyXEnabled,
        ITG3200GetStandbyYEnabled, ITG3200GetStandbyZEnabled;
      (rewrite flag_get_after_set by (exact H || (cbv; intuition discriminate)));
      reflexivity.
Qed.

Lemma device_id_and_power_flags_round_trip_witness :
  let st := device (set_reg ITG3200_RA_WHO_AM_I x81 cleared) in
  faults (bus st) = []
  /\ fst (ITG3200GetDeviceID (snd (ITG3200SetDeviceID 0x34 st))) = Ok 0x34
  /\ regs (bus (snd (ITG3200SetDeviceID 0x34 st))) ITG3200_RA_WHO_AM_I = xe9.
Proof.
  intros st. split; [reflexivity|].
  pose proof (device_id_and_power_flags_round_trip st eq_refl) as (Hid & _).
  destruct (Hid 0x34) as (Hv & _).
  split; [exact Hv | reflexivity].
Defined.

(** ** Fields that share a register *)

Lemma setter_keeps_field (s : setter) (f : field_getter) (st : State) :
  faults (bus st) = [] ->
  fields_disjoint (setter_descriptor s) (field_getter_descriptor f) ->
  fst (get_field f (snd (run_setter s st))) = fst (get_field f st).
Proof.
  intros H Hd.
  pose proof (setter_reliable s st H) as E. cbv zeta in E. rewrite E.
  rewrite !get_field_reliable by (exact H || reflexivity). cbv zeta.
  cbn [bus regs]. f_equal. unfold set_reg.
  destruct (Z.eqb_spec (d_reg (field_getter_descriptor f))
              (d_reg (setter_descriptor s))) as [Er|Er]; [|reflexivity].
  rewrite Er. pose proof (field_getter_field_ok f) as Hf.
  apply field_read_ext; [exact Hf|]. intros i Hi.
  destruct Hf as (Hl & Hs & H7). unfold field_shift in Hi.
  apply setter_byte_outside; [lia|].
  unfold in_field. destruct Hd as [Hd|Hd]; [congruence|].
  unfold field_shift in *. lia.
Qed.

Lemma setter_keeps_flag (s : setter) (f : flag_getter) (st : State) :
  faults (bus st) = [] ->
  fields_disjoint (setter_descriptor s) (flag_getter_descriptor f) ->
  fst (get_flag f (snd (run_setter s st))) = fst (get_flag f st).
Proof.
  intros H Hd.
  pose proof (setter_reliable s st H) as E. cbv zeta in E. rewrite E.
  rewrite !get_flag_reliable by (exact H || reflexivity). cbv zeta.
  cbn [bus regs]. f_equal. unfold set_reg.
  destruct (Z.eqb_spec (d_reg (flag_getter_descriptor f))
              (d_reg (setter_descriptor s))) as [Er|Er]; [|reflexivity].
  rewrite Er.
  assert (Hb : 0 <= d_bit (flag_getter_descriptor f) < 8
               /\ d_width (flag_getter_descriptor f) = 1)
    by (destruct f; cbv -[Z.le Z.lt Z.add Z.sub]; lia).
  apply setter_byte_outside; [lia|].
  unfold in_field. destruct Hd as [Hd|Hd]; [congruence|].
  destruct Hb as (Hb & Hw). rewrite Hw in Hd. unfold field_shift in *. lia.
Qed.

(** X4.  On a bus that works, a setter leaves unchanged what every getter
    of another field returns, be the other field in another register or in
    the same one: setting the full-scale range keeps the filter bandwidth and
    conversely; the sleep and standby flags, the reset strobe and the clock
    source do not disturb one another. *)
Theorem setter_keeps_other_fields (s : setter) (st : State) :
  faults (bus st) = [] ->
  (forall f : field_getter,
      fields_disjoint (setter_descriptor s) (field_getter_descriptor f) ->
      fst (get_field f (snd (run_setter s st))) = fst (get_field f st))
  /\ (forall f : flag_getter,
         fields_disjoint (setter_descriptor s) (flag_getter_descriptor f) ->
         fst (get_flag f (snd (run_setter s st))) = fst (get_flag f st)).
Proof.
  intros H. split; intros f Hd.
  - apply setter_keeps_field; assumption.
  - apply setter_keeps_flag; assumption.
Qed.

(** The theorem at PWR_MGM holding 0x45 (asleep, clock source 5): after the
    reset strobe is written the device still reads asleep with clock
    source 5. *)
Lemma setter_keeps_other_fields_witness :
  let st := device (set_reg ITG3200_RA_PWR_MGM x45 cleared) in
  faults (bus st) = []
  /\ fst (ITG3200GetClockSource (snd (ITG3200Reset st))) = Ok 5
  /\ fst (ITG3200GetSleepEnabled (snd (ITG3200Reset st))) = Ok true.
Proof.
  intros st. split; [reflexivity|].
  pose proof (setter_keeps_other_fields TriggerReset st eq_refl) as (Hf & Hg).
  split.
  - refine (Hf ClockSource _). right. right. reflexivity.
  - refine (Hg SleepEnabled _). right. right. reflexivity.
Defined.

(** ** The initialization and the settings it does not name *)

Lemma initialize_as_setters (st : State) :
  snd (ITG3200Initialize st)
  = snd (run_setter (SetClockSource ITG3200_CLOCK_PLL_XGYRO)
           (snd (run_setter (SetFullScaleRange ITG3200_FULLSCALE_2000) st))).
Proof.
  unfold ITG3200Initialize. cbn [run_setter].
  destruct (ITG3200SetFullScaleRange ITG3200_FULLSCALE_2000 st). reflexivity.
Qed.

Lemma setter_stays_reliable (s : setter) (st : State) :
  faults (bus st) = [] -> faults (bus (snd (run_setter s st))) = [].
Proof.
  intros H. pose proof (setter_reliable s st H) as E. cbv zeta in E.
  rewrite E. reflexivity.
Qed.

Lemma regs_after_setter (s : setter) (st : State) (r : Z) :
  faults (bus st) = [] ->
  regs (bus (snd (run_setter s st))) r
  = if r =? d_reg (setter_descriptor s)
    then setter_byte s (regs (bus st) (d_reg (setter_descriptor s)))
    else regs (bus st) r.
Proof.
  intros H. pose proof (setter_reliable s st H) as E. cbv zeta in E.
  rewrite E. reflexivity.
Qed.

(** X5.  On a bus that works, the initialization changes the full-scale
    range and the clock source only: every other field getter (device ID,
    rate, filter bandwidth) and every flag getter returns afterwards what it
    returned before; in particular a device that is asleep or has an axis in
    standby stays so. *)
Theorem initialize_keeps_other_settings (st : State) :
  faults (bus st) = [] ->
  let st' := snd (ITG3200Initialize st) in
  (forall f : field_getter,
      f <> FullScaleRange -> f <> ClockSource ->
      fst (get_field f st') = fst (get_field f st))
  /\ (forall f : flag_getter, fst (get_flag f st') = fst (get_flag f st)).
Proof.
  intros H st'. subst st'. rewrite initialize_as_setters.
  pose proof (setter_stays_reliable
                (SetFullScaleRange ITG3200_FULLSCALE_2000) st H) as H1.
  split.
  - intros f Hfs Hclk.
    rewrite setter_keeps_field, setter_keeps_field; try assumption; try reflexivity;
      destruct f; try contradiction;
      cbv -[Z.le Z.lt Z.add Z.sub];
      first [ left; discriminate | right; left; lia | right; right; lia ].
  - intros f.
    rewrite setter_keeps_flag, setter_keeps_flag; try assumption; try reflexivity;
      destruct f;
      cbv -[Z.le Z.lt Z.add Z.sub];
      first [ left; discriminate | right; left; lia | right; right; lia ].
Qed.

(** The theorem at a device asleep with the Z axis in standby (PWR_MGM
    0x48) and filter bandwidth 5: after the initialization it is still
    asleep and the bandwidth is still 5. *)
Lemma initialize_keeps_other_settings_witness :
  let st := device (set_reg ITG3200_RA_PWR_MGM x48
                      (set_reg ITG3200_RA_DLPF_FS x05 cleared)) in
  faults (bus st) = []
  /\ fst (ITG3200GetSleepEnabled (snd (ITG3200Initialize st))) = Ok true
  /\ fst (ITG3200GetDLPFBandwidth (snd (ITG3200Initialize st))) = Ok 5.
Proof.
  intros st. split; [reflexivity|].
  pose proof (initialize_keeps_other_settings st eq_refl) as (Hf & Hg).
  split.
  - exact (Hg SleepEnabled).
  - refine (Hf DLPFBandwidth _ _); discriminate.
Defined.

(** ** Setting twice, and in either order *)

Lemma in_field_dec (d : descriptor) (i : Z) : in_field d i \/ ~ in_field d i.
Proof. unfold in_field. lia. Qed.

Lemma setter_byte_idem (s : setter) (old : byte) :
  setter_byte s (setter_byte s old) = setter_byte s old.
Proof.
  apply byte_ext. intros i Hi.
  destruct (in_field_dec (setter_descriptor s) i) as [Hin|Hout].
  - apply setter_byte_inside; assumption.
  - apply setter_byte_outside; assumption.
Qed.

Lemma setter_byte_commute (s1 s2 : setter) (old : byte) :
  (forall i, ~ (in_field (setter_descriptor s1) i
                /\ in_field (setter_descriptor s2) i)) ->
  setter_byte s2 (setter_byte s1 old) = setter_byte s1 (setter_byte s2 old).
Proof.
  intros Hd. apply byte_ext. intros i Hi.
  destruct (in_field_dec (setter_descriptor s1) i) as [H1|H1];
    destruct (in_field_dec (setter_descriptor s2) i) as [H2|H2].
  - exfalso. apply (Hd i). split; assumption.
  - rewrite (setter_byte_outside s2) by assumption.
    apply setter_byte_inside; assumption.
  - rewrite (setter_byte_outside s1 (setter_byte s2 old)) by assumption.
    apply setter_byte_inside; assumption.
  - rewrite !setter_byte_outside by assumption. reflexivity.
Qed.

(** X6.  On a bus that works, running the initialization a second time
    changes no register: every register holds after the second run what it
    held after the first. *)
Theorem initialize_idempotent (st : State) (r : Z) :
  faults (bus st) = [] ->
  regs (bus (snd (ITG3200Initialize (snd (ITG3200Initialize st))))) r
  = regs (bus (snd (ITG3200Initialize st))) r.
Proof.
  intros H.
  set (fs := SetFullScaleRange ITG3200_FULLSCALE_2000).
  set (clk := SetClockSource ITG3200_CLOCK_PLL_XGYRO).
  rewrite !initialize_as_setters. fold fs clk.
  pose proof (setter_stays_reliable fs st H) as H1.
  pose proof (setter_stays_reliable clk _ H1) as H2.
  pose proof (setter_stays_reliable fs _ H2) as H3.
  rewrite (regs_after_setter clk) by exact H3.
  rewrite !(regs_after_setter fs) by exact H2.
  rewrite !(regs_after_setter clk) by exact H1.
  rewrite !(regs_after_setter fs) by exact H.
  change (d_reg (setter_descriptor clk)) with ITG3200_RA_PWR_MGM.
  change (d_reg (setter_descriptor fs)) with ITG3200_RA_DLPF_FS.
  change (ITG3200_RA_PWR_MGM =? ITG3200_RA_DLPF_FS) with false.
  change (ITG3200_RA_DLPF_FS =? ITG3200_RA_PWR_MGM) with false.
  change (ITG3200_RA_PWR_MGM =? ITG3200_RA_PWR_MGM) with true.
  change (ITG3200_RA_DLPF_FS =? ITG3200_RA_DLPF_FS) with true.
  cbv iota.
  destruct (r =? ITG3200_RA_PWR_MGM); [apply setter_byte_idem|].
  destruct (r =? ITG3200_RA_DLPF_FS); [apply setter_byte_idem|].
  reflexivity.
Qed.

Lemma initialize_idempotent_witness :
  let st := device (set_reg ITG3200_RA_PWR_MGM x48
                      (set_reg ITG3200_RA_DLPF_FS x05 cleared)) in
  faults (bus st) = []
  /\ regs (bus (snd (ITG3200Initialize (snd (ITG3200Initialize st)))))
       ITG3200_RA_PWR_MGM
     = x49.
Proof.
  intros st. split; [reflexivity|].
  refine (eq_trans (initialize_idempotent st ITG3200_RA_PWR_MGM eq_refl) _).
  reflexivity.
Defined.

(** X7.  On a bus that works, setting twice is setting once: after a setter
    has run, running it again with the same argument leaves every register
    as it is. *)
Theorem setter_idempotent (s : setter) (st : State) (r : Z) :
  faults (bus st) = [] ->
  regs (bus (snd (run_setter s (snd (run_setter s st))))) r
  = regs (bus (snd (run_setter s st))) r.
Proof.
  intros H. pose proof (setter_stays_reliable s st H) as H1.
  rewrite (regs_after_setter s (snd (run_setter s st))) by exact H1.
  destruct (Z.eqb_spec r (d_reg (setter_descriptor s))) as [E|E]; [|reflexivity].
  subst r. rewrite (regs_after_setter s st) by exact H.
  rewrite Z.eqb_refl. apply setter_byte_idem.
Qed.

Lemma setter_idempotent_witness :
  let st := device (set_reg ITG3200_RA_DLPF_FS xe5 cleared) in
  faults (bus st) = []
  /\ regs (bus (snd (ITG3200SetDLPFBandwidth 2
                       (snd (ITG3200SetDLPFBandwidth 2 st)))))
       ITG3200_RA_DLPF_FS
     = xe2.
Proof.
  intros st. split; [reflexivity|].
  refine (eq_trans
            (setter_idempotent (SetDLPFBandwidth 2) st ITG3200_RA_DLPF_FS eq_refl)
            _).
  reflexivity.
Defined.

(** X8.  On a bus that works, two setters of fields that share no bit, in
    one register or in two, can run in either order: every register ends
    with the same byte. *)
Theorem disjoint_setters_commute (s1 s2 : setter) (st : State) (r : Z) :
  faults (bus st) = [] ->
  fields_disjoint (setter_descriptor s1) (setter_descriptor s2) ->
  regs (bus (snd (run_setter s2 (snd (run_setter s1 st))))) r
  = regs (bus (snd (run_setter s1 (snd (run_setter s2 st))))) r.
Proof.
  intros H Hd.
  rewrite (regs_after_setter s2 (snd (run_setter s1 st)))
    by (apply setter_stays_reliable; exact H).
  rewrite (regs_after_setter s1 (snd (run_setter s2 st)))
    by (apply setter_stays_reliable; exact H).
  rewrite !(regs_after_setter s1 st), !(regs_after_setter s2 st) by exact H.
  destruct (Z.eqb_spec (d_reg (setter_descriptor s1)) (d_reg (setter_descriptor s2)))
    as [E12|E12].
  - rewrite <- E12. rewrite !Z.eqb_refl.
    destruct (r =? d_reg (setter_descriptor s1)); [|reflexivity].
    apply setter_byte_commute. intros i [H1 H2]. unfold in_field in *.
    destruct Hd as [Hd|Hd]; [contradiction|].
    pose proof (setter_field_ok s1) as (? & ? & ?).
    pose proof (setter_field_ok s2) as (? & ? & ?).
    unfold field_shift in *. lia.
  - destruct (Z.eqb_spec (d_reg (setter_descriptor s2)) (d_reg (setter_descriptor s1)))
      as [E21|E21]; [congruence|].
    destruct (Z.eqb_spec r (d_reg (setter_descriptor s2))) as [E2|E2];
      destruct (Z.eqb_spec r (d_reg (setter_descriptor s1))) as [E1|E1];
      try reflexivity.
    congruence.
Qed.

(** The theorem at the two fields of DLPF_FS, the register holding 0xE5. *)
Lemma disjoint_setters_commute_witness :
  let st := device (set_reg ITG3200_RA_DLPF_FS xe5 cleared) in
  faults (bus st) = []
  /\ fields_disjoint (setter_descriptor (SetFullScaleRange 3))
       (setter_descriptor (SetDLPFBandwidth 2))
  /\ regs (bus (snd (ITG3200SetDLPFBandwidth 2
                       (snd (ITG3200SetFullScaleRange 3 st)))))
       ITG3200_RA_DLPF_FS
     = regs (bus (snd (ITG3200SetFullScaleRange 3
                         (snd (ITG3200SetDLPFBandwidth 2 st)))))
         ITG3200_RA_DLPF_FS.
Proof.
  intros st.
  assert (Hd : fields_disjoint (setter_descriptor (SetFullScaleRange 3))
                 (setter_descriptor (SetDLPFBandwidth 2)))
    by (right; right; reflexivity).
  split; [reflexivity|]. split; [exact Hd|].
  exact (disjoint_setters_commute (SetFullScaleRange 3) (SetDLPFBandwidth 2)
           st ITG3200_RA_DLPF_FS eq_refl Hd).
Defined.

(** ** What a setter touches, whatever the bus does *)

Lemma touches_WriteByte (reg data : Z) :
  acc_touches_only reg (I2CDeviceWriteByte reg data).
Proof.
  intros b r Hr. unfold I2CDeviceWriteByte, Transport.writeByte.
  rewrite attempt_eq. destruct (next_ok b); cbn [snd regs]; [|reflexivity].
  apply set_reg_other. exact Hr.
Qed.

Lemma touches_after_read {A} (reg : Z) (k : Z -> Acc A) :
  (forall a, acc_touches_only reg (k a)) ->
  acc_touches_only reg (acc_bind (I2CDeviceReadByte reg) k).
Proof.
  intros Hk b r Hr. unfold acc_bind. rewrite ReadByte_eq.
  destruct (next_ok b); [|reflexivity].
  rewrite Hk by exact Hr. reflexivity.
Qed.

Lemma on_bus_touches {A} (reg : Z) (m : Acc A) (st : State) (r : Z) :
  acc_touches_only reg m -> r <> reg ->
  regs (bus (snd (on_bus m st))) r = regs (bus st) r.
Proof.
  intros Hm Hr. unfold on_bus. specialize (Hm (bus st) r Hr).
  destruct (m (bus st)) as [x b1]. exact Hm.
Qed.

Lemma on_bus_buffer {A} (m : Acc A) (st : State) :
  ITG3200Buffer (snd (on_bus m st)) = ITG3200Buffer st.
Proof. unfold on_bus. destruct (m (bus st)). reflexivity. Qed.

(** X9.  Whatever the bus does, a setter changes no register but its own,
    leaves the scratch buffer alone, and every transaction it issues
    addresses its own register. *)
Theorem setter_touches_own_register (s : setter) (st : State) :
  let reg := d_reg (setter_descriptor s) in
  let st' := snd (run_setter s st) in
  (forall r, r <> reg -> regs (bus st') r = regs (bus st) r)
  /\ ITG3200Buffer st' = ITG3200Buffer st
  /\ exists evs,
       log (bus st') = log (bus st) ++ evs
       /\ Forall (fun e => tx_registers (tx e) = [reg]) evs.
Proof.
  intros reg st'. subst reg st'. split; [|split].
  - intros r Hr.
    destruct s; cbn [run_setter setter_descriptor d_reg] in *;
      (eapply on_bus_touches; [|exact Hr]);
      try (apply touches_after_read; intros a; apply touches_WriteByte).
    apply touches_WriteByte.
  - destruct s; apply on_bus_buffer.
  - destruct s; cbn [run_setter setter_descriptor d_reg];
      apply (on_bus_extends
               (fun e => tx_registers (tx e) = [_]));
      (apply emits_WriteBits || apply emits_WriteBit || apply emits_WriteByte);
      reflexivity.
Qed.

(** ** Failures after the first transaction *)

Lemma rmw_failed_write (reg : Z) (g : Z -> Z) (b : Bus) (fs : list bool) :
  faults b = false :: true :: fs ->
  acc_bind (I2CDeviceReadByte reg) (fun x => I2CDeviceWriteByte reg (g x)) b
  = (BusTransactionFailure,
     mkBus (regs b) fs
       (log b ++ [ ev_ok (TxReadByte reg);
                   ev_failed
                     (TxWriteByte reg (uchar_of_Z (g (Z_of_uchar (regs b reg))))) ])).
Proof.
  intros H. destruct b as [rf fl lg]. cbn [faults] in H. subst fl.
  unfold acc_bind, I2CDeviceReadByte, acc_bind, Transport.readByte,
    I2CDeviceWriteByte, Transport.writeByte, attempt, acc_ret.
  cbn [faults regs log negb]. rewrite <- app_assoc. reflexivity.
Qed.

(** X10.  When the read of a read-modify-write setter succeeds and its
    write fails, the setter stops there (one read, one failed write of the
    byte it computed) and every register is as it was. *)
Theorem failed_write_leaves_registers (s : setter) (st : State) (fs : list bool) :
  faults (bus st) = false :: true :: fs ->
  read_modify_write s = true ->
  let reg := d_reg (setter_descriptor s) in
  let st' := snd (run_setter s st) in
  regs (bus st') = regs (bus st)
  /\ faults (bus st') = fs
  /\ log (bus st')
     = log (bus st)
       ++ [ ev_ok (TxReadByte reg);
            ev_failed (TxWriteByte reg (setter_byte s (regs (bus st) reg))) ].
Proof.
  intros H Hrmw reg st'. subst reg st'.
  destruct s; try discriminate Hrmw;
    cbn [run_setter setter_descriptor d_reg setter_byte];
    unfold ITG3200SetDeviceID, ITG3200SetFullScaleRange, ITG3200SetDLPFBandwidth,
      ITG3200SetInterruptMode, ITG3200SetInterruptDrive, ITG3200SetInterruptLatch,
      ITG3200SetInterruptLatchClear, ITG3200SetIntDeviceReadyEnabled,
      ITG3200SetIntDataReadyEnabled, ITG3200Reset, ITG3200SetSleepEnabled,
      ITG3200SetStandbyXEnabled, ITG3200SetStandbyYEnabled,
      ITG3200SetStandbyZEnabled, ITG3200SetClockSource,
      statement, on_bus, I2CDeviceWriteBits, I2CDeviceWriteBit;
    cbv zeta; cbn [snd];
    match goal with
    | |- context [acc_bind (I2CDeviceReadByte ?r)
                    (fun x => I2CDeviceWriteByte ?r (@?g x)) (bus st)] =>
        rewrite (rmw_failed_write r g (bus st) fs H)
    end;
    repeat split.
Qed.

Lemma failed_write_leaves_registers_witness :
  let st := faulty_device (set_reg ITG3200_RA_PWR_MGM x40 cleared)
              [false; true] [x00; x00; x00; x00; x00; x00] in
  faults (bus st) = [false; true]
  /\ read_modify_write (SetClockSource 1) = true
  /\ regs (bus (snd (ITG3200SetClockSource 1 st))) ITG3200_RA_PWR_MGM = x40.
Proof.
  intros st. split; [reflexivity|]. split; [reflexivity|].
  pose proof (failed_write_leaves_registers (SetClockSource 1) st []
                eq_refl eq_refl) as (Hr & _).
  cbv zeta in Hr. cbn [run_setter] in Hr. rewrite Hr. reflexivity.
Defined.

(** X11.  The initialization does not stop at a failure: when its first
    read (of DLPF_FS) fails and the bus works afterwards, the full-scale
    range is left unwritten, and the clock source is set all the same, by a
    read and a write of PWR_MGM; nothing tells the caller. *)
Theorem initialize_goes_on_after_failure (st : State) :
  faults (bus st) = [true] ->
  let st' := snd (ITG3200Initialize st) in
  let pwr_mgm := Z_of_uchar (regs (bus st) ITG3200_RA_PWR_MGM) in
  let w := uchar_of_Z (Z.lor (Z.land pwr_mgm 0xF8) 0x01) in
  log (bus st')
  = log (bus st)
    ++ [ ev_failed (TxReadByte ITG3200_RA_DLPF_FS);
         ev_ok (TxReadByte ITG3200_RA_PWR_MGM);
         ev_ok (TxWriteByte ITG3200_RA_PWR_MGM w) ]
  /\ regs (bus st') ITG3200_RA_PWR_MGM = w
  /\ (forall r, r <> ITG3200_RA_PWR_MGM -> regs (bus st') r = regs (bus st) r)
  /\ fst (ITG3200Initialize st) = tt.
Proof.
  intros H st' pwr_mgm w.
  assert (E : st'
              = mkState
                  (mkBus (set_reg ITG3200_RA_PWR_MGM w (regs (bus st))) []
                     (log (bus st)
                      ++ [ ev_failed (TxReadByte ITG3200_RA_DLPF_FS);
                           ev_ok (TxReadByte ITG3200_RA_PWR_MGM);
                           ev_ok (TxWriteByte ITG3200_RA_PWR_MGM w) ]))
                  (ITG3200Buffer st)).
  { subst st'. rewrite initialize_as_setters.
    set (st1 := snd (run_setter (SetFullScaleRange ITG3200_FULLSCALE_2000) st)).
    assert (S1 : stopped_at (TxReadByte ITG3200_RA_DLPF_FS) [] st st1)
      by exact (proj2 (on_bus_read_first_failing _ _ st [] H)).
    destruct S1 as (Sr & Sb & Sf & Sl).
    pose proof (setter_reliable (SetClockSource ITG3200_CLOCK_PLL_XGYRO) st1 Sf)
      as E2.
    cbv zeta in E2. rewrite E2.
    cbn [setter_descriptor d_reg setter_byte d_bit d_width setter_events
           read_modify_write].
    rewrite Sr, Sb, Sl. rewrite clock_pll_xgyro_byte. fold pwr_mgm w.
    rewrite <- app_assoc. reflexivity. }
  rewrite E. cbn [bus regs log].
  split; [reflexivity|]. split; [apply set_reg_same|]. split.
  - intros r Hr. apply set_reg_other. exact Hr.
  - destruct (fst (ITG3200Initialize st)). reflexivity.
Qed.

Lemma initialize_goes_on_after_failure_witness :
  let st := faulty_device (set_reg ITG3200_RA_PWR_MGM x40 cleared) [true]
              [x00; x00; x00; x00; x00; x00] in
  faults (bus st) = [true]
  /\ regs (bus (snd (ITG3200Initialize st))) ITG3200_RA_PWR_MGM = x41
  /\ regs (bus (snd (ITG3200Initialize st))) ITG3200_RA_DLPF_FS = x00.
Proof.
  intros st. split; [reflexivity|].
  pose proof (initialize_goes_on_after_failure st eq_refl) as (_ & Hw & Hr & _).
  split; [exact Hw|].
  refine (eq_trans (Hr ITG3200_RA_DLPF_FS _) _); [discriminate | reflexivity].
Defined.

(** ** The reading and its two bytes *)

Lemma decode_sample_arith (hi lo : byte) :
  decode_sample (Z_of_uchar hi) (Z_of_uchar lo)
  = Z_of_uchar hi * 256 + Z_of_uchar lo
    - (if Z_of_uchar hi <? 128 then 0 else 65536).
Proof.
  pose proof (Z_of_uchar_range hi) as Hh. pose proof (Z_of_uchar_range lo) as Hl.
  unfold decode_sample. rewrite Z.shiftl_mul_pow2 by lia. change (2 ^ 8) with 256.
  rewrite lor_high_low by exact Hl.
  unfold sint. change (2 ^ 16) with 65536. change (2 ^ (16 - 1)) with 32768.
  rewrite Z.mod_small by lia.
  destruct (Z.ltb_spec (Z_of_uchar hi * 256 + Z_of_uchar lo) 32768);
    destruct (Z.ltb_spec (Z_of_uchar hi) 128); lia.
Qed.

Lemma sample_reliable (g : sample_getter) (st : State) :
  faults (bus st) = [] ->
  fst (get_sample g st)
  = decode_sample (Z_of_uchar (regs (bus st) (sample_register g)))
      (Z_of_uchar (regs (bus st) (sample_register g + 1))).
Proof.
  intros H.
  assert (Hok : next_ok (bus st) = true) by (unfold next_ok; rewrite H; reflexivity).
  rewrite sample_value, sample_state, burst_into_buffer_eq, Hok.
  unfold buffer_at. cbn [snd ITG3200Buffer seq map store_bytes app nth].
  rewrite Z.add_0_r. reflexivity.
Qed.

(** X12.  On a bus that works, a two-byte reading loses nothing: its value
    modulo 65536 has the high register as its quotient by 256 and the low
    register as its remainder, it is negative exactly when the top bit of
    the high register is set, and it is then the unsigned value less
    65536. *)
Theorem reading_determines_bytes (g : sample_getter) (st : State) :
  faults (bus st) = [] ->
  let hi := Z_of_uchar (regs (bus st) (sample_register g)) in
  let lo := Z_of_uchar (regs (bus st) (sample_register g + 1)) in
  let r := fst (get_sample g st) in
  (r mod 65536) / 256 = hi
  /\ r mod 256 = lo
  /\ (r <? 0) = (128 <=? hi)
  /\ r = hi * 256 + lo - (if 128 <=? hi then 65536 else 0).
Proof.
  intros H hi lo r. subst r. rewrite sample_reliable by exact H.
  fold hi lo.
  pose proof (decode_sample_arith (regs (bus st) (sample_register g))
                (regs (bus st) (sample_register g + 1))) as E.
  fold hi lo in E. rewrite E.
  pose proof (Z_of_uchar_range (regs (bus st) (sample_register g))) as Hh.
  pose proof (Z_of_uchar_range (regs (bus st) (sample_register g + 1))) as Hl.
  fold hi in Hh. fold lo in Hl.
  destruct (Z.ltb_spec hi 128) as [C|C]; destruct (Z.leb_spec 128 hi) as [D|D];
    try lia.
  - repeat split.
    + rewrite Z.mod_small by lia. symmetry. apply Z.div_unique with lo; lia.
    + symmetry. apply Z.mod_unique with hi; lia.
    + apply Z.ltb_ge. lia.
  - repeat split.
    + replace (hi * 256 + lo - 65536) with (hi * 256 + lo + (-1) * 65536) by lia.
      rewrite Z.mod_add by lia. rewrite Z.mod_small by lia.
      symmetry. apply Z.div_unique with lo; lia.
    + symmetry. apply Z.mod_unique with (hi - 256); lia.
    + apply Z.ltb_lt. lia.
Qed.

Lemma reading_determines_bytes_witness :
  let st := device (set_reg ITG3200_RA_GYRO_YOUT_H xfe
                      (set_reg ITG3200_RA_GYRO_YOUT_L x0c cleared)) in
  faults (bus st) = []
  /\ fst (ITG3200GetRotationY st) = -500
  /\ (fst (ITG3200GetRotationY st) mod 65536) / 256 = 0xFE.
Proof.
  intros st. split; [reflexivity|]. split; [reflexivity|].
  exact (proj1 (reading_determines_bytes RotationY st eq_refl)).
Defined.

(** ** The shared buffer *)

(** X13.  All reads of samples go through the one buffer: on a bus that
    works, a two-byte read made after the combined rotation read overwrites
    bytes 0 and 1 of the buffer with its own pair and leaves in bytes 2 to 5
    the Y and Z registers the combined read put there; what lies beyond
    byte 5 is never touched. *)
Theorem sample_read_overwrites_two_bytes (g : sample_getter) (st : State) :
  faults (bus st) = [] ->
  let rf := regs (bus st) in
  ITG3200Buffer (snd (get_sample g (snd (ITG3200GetRotation st))))
  = [ rf (sample_register g); rf (sample_register g + 1);
      rf ITG3200_RA_GYRO_YOUT_H; rf ITG3200_RA_GYRO_YOUT_L;
      rf ITG3200_RA_GYRO_ZOUT_H; rf ITG3200_RA_GYRO_ZOUT_L ]
    ++ skipn 6 (ITG3200Buffer st).
Proof.
  intros H rf.
  assert (Hok : next_ok (bus st) = true) by (unfold next_ok; rewrite H; reflexivity).
  rewrite sample_state, rotation_state.
  rewrite (burst_into_buffer_eq ITG3200_RA_GYRO_XOUT_H 6 st), Hok.
  rewrite burst_into_buffer_eq.
  cbn [snd bus regs ITG3200Buffer]. unfold next_ok. cbn [faults]. rewrite H.
  cbn [tl seq map store_bytes app length skipn].
  rewrite Z.add_0_r. reflexivity.
Qed.

Lemma sample_read_overwrites_two_bytes_witness :
  let st := device (set_reg ITG3200_RA_TEMP_OUT_H x12
                      (set_reg ITG3200_RA_GYRO_ZOUT_L x34 cleared)) in
  faults (bus st) = []
  /\ ITG3200Buffer (snd (ITG3200GetTemperature (snd (ITG3200GetRotation st))))
     = [x12; x00; x00; x00; x00; x34].
Proof.
  intros st. split; [reflexivity|].
  exact (sample_read_overwrites_two_bytes Temperature st eq_refl).
Defined.

(** * Bus failures and the caller *)

Lemma added_of_log {A} (op : Driver A) (st : State) (evs : list event) :
  log (bus (snd (op st))) = log (bus st) ++ evs -> added op st = evs.
Proof.
  intros H. unfold added. rewrite H, skipn_app, skipn_all, Nat.sub_diag.
  reflexivity.
Qed.

(** An operation that returns the same thing from a run with a failed
    transaction and from a run without one does not surface the failure. *)
Lemma same_result_not_surfaced {A} (op : Driver A) (st_fail st_ok : State)
      (evs_fail evs_ok : list event) :
  log (bus (snd (op st_fail))) = log (bus st_fail) ++ evs_fail ->
  some_failed evs_fail = true ->
  log (bus (snd (op st_ok))) = log (bus st_ok) ++ evs_ok ->
  some_failed evs_ok = false ->
  fst (op st_fail) = fst (op st_ok) ->
  ~ surfaces_failure op.
Proof.
  intros Lf Ff Lo Fo Hres [is_error H].
  pose proof (H st_fail) as H1. pose proof (H st_ok) as H2.
  rewrite (added_of_log op st_fail evs_fail Lf) in H1.
  rewrite (added_of_log op st_ok evs_ok Lo) in H2.
  unfold some_failed in Ff, Fo. rewrite Ff in H1. rewrite Fo in H2.
  rewrite Hres in H1. congruence.
Qed.

Lemma setter_not_surfaced (s : setter) : ~ surfaces_failure (run_setter s).
Proof.
  destruct (setter_stopped s bus_down [] eq_refl) as (t & (_ & _ & _ & Lf) & _).
  pose proof (setter_reliable s (device cleared) eq_refl) as E. cbv zeta in E.
  eapply (same_result_not_surfaced _ bus_down (device cleared)).
  - exact Lf.
  - reflexivity.
  - rewrite E. reflexivity.
  - unfold setter_events. destruct (read_modify_write s); reflexivity.
  - destruct (fst (run_setter s bus_down)), (fst (run_setter s (device cleared))).
    reflexivity.
Qed.

Lemma initialize_not_surfaced : ~ surfaces_failure ITG3200Initialize.
Proof.
  eapply (same_result_not_surfaced _ bus_down (device cleared)
            [ ev_failed (TxReadByte ITG3200_RA_DLPF_FS);
              ev_ok (TxReadByte ITG3200_RA_PWR_MGM);
              ev_ok (TxWriteByte ITG3200_RA_PWR_MGM x01) ]
            [ ev_ok (TxReadByte ITG3200_RA_DLPF_FS);
              ev_ok (TxWriteByte ITG3200_RA_DLPF_FS x18);
              ev_ok (TxReadByte ITG3200_RA_PWR_MGM);
              ev_ok (TxWriteByte ITG3200_RA_PWR_MGM x01) ]);
    reflexivity.
Qed.

Lemma sample_not_surfaced (g : sample_getter) : ~ surfaces_failure (get_sample g).
Proof.
  eapply (same_result_not_surfaced _ bus_down (device cleared)
            [ev_failed (TxReadBytes (sample_register g) 2)]
            [ev_ok (TxReadBytes (sample_register g) 2)]);
    destruct g; reflexivity.
Qed.

Lemma rotation_not_surfaced : ~ surfaces_failure ITG3200GetRotation.
Proof.
  eapply (same_result_not_surfaced _ bus_down (device cleared)
            [ev_failed (TxReadBytes ITG3200_RA_GYRO_XOUT_H 6)]
            [ev_ok (TxReadBytes ITG3200_RA_GYRO_XOUT_H 6)]);
    reflexivity.
Qed.

Lemma get_field_log_reliable (f : field_getter) (st : State) :
  faults (bus st) = [] ->
  log (bus (snd (get_field f st)))
  = log (bus st) ++ [ev_ok (TxReadByte (d_reg (field_getter_descriptor f)))].
Proof.
  intros H. destruct f; cbn [get_field field_getter_descriptor d_reg];
    unfold ITG3200GetDeviceID, ITG3200GetRate, ITG3200GetFullScaleRange,
      ITG3200GetDLPFBandwidth, ITG3200GetClockSource, on_bus;
    rewrite ?ReadBits_reliable, ?ReadByte_reliable by exact H; reflexivity.
Qed.

Lemma get_flag_log_reliable (f : flag_getter) (st : State) :
  faults (bus st) = [] ->
  log (bus (snd (get_flag f st)))
  = log (bus st) ++ [ev_ok (TxReadByte (d_reg (flag_getter_descriptor f)))].
Proof.
  intros H. destruct f; cbn [get_flag flag_getter_descriptor d_reg];
    unfold ITG3200GetInterruptMode, ITG3200getInterruptDrive,
      ITG3200GetInterruptLatch, ITG3200GetInterruptLatchClear,
      ITG3200GetIntDeviceReadyEnabled, ITG3200GetIntDataReadyEnabled,
      ITG3200GetIntDeviceReadyStatus, ITG3200GetIntDataReadyStatus,
      ITG3200GetSleepEnabled, ITG3200GetStandbyXEnabled,
      ITG3200GetStandbyYEnabled, ITG3200GetStandbyZEnabled, on_bus;
    rewrite ReadBit_reliable by exact H; reflexivity.
Qed.

(** A field holding [j], shifted to its place, reads back [j]. *)
Lemma field_of_shifted (k l j : Z) :
  0 <= k -> 0 <= l -> k + l <= 8 -> 0 <= j < 2 ^ l ->
  Z.land (Z.shiftr (Z_of_uchar (uchar_of_Z (j * 2 ^ k))) k) (Z.ones l) = j.
Proof.
  intros Hk Hl Hkl Hj.
  rewrite field_read_div_mod by assumption. rewrite Z_of_uchar_of_Z.
  assert (Hp : 0 < 2 ^ k) by (apply Z.pow_pos_nonneg; lia).
  assert (Hb : j * 2 ^ k < 256).
  { change 256 with (2 ^ 8).
    apply Z.lt_le_trans with (2 ^ l * 2 ^ k); [nia|].
    rewrite <- Z.pow_add_r by lia. apply Z.pow_le_mono_r; lia. }
  rewrite (Z.mod_small (j * 2 ^ k)) by nia.
  rewrite Z.div_mul by lia. apply Z.mod_small. exact Hj.
Qed.

Lemma field_getter_not_surfaced (f : field_getter) (on_failure : Z) :
  0 <= on_failure < field_getter_bound f ->
  ~ surfaces_failure (returning on_failure (get_field f)).
Proof.
  intros Hj.
  set (d := field_getter_descriptor f).
  set (st_ok :=
         device (set_reg (d_reg d)
                   (uchar_of_Z
                      (on_failure * 2 ^ field_shift (d_bit d) (d_width d)))
                   cleared)).
  destruct (getter_stopped (GField f) bus_down [] eq_refl)
    as (t & (_ & _ & _ & Lf) & _).
  eapply (same_result_not_surfaced _ bus_down st_ok).
  - exact Lf.
  - reflexivity.
  - exact (get_field_log_reliable f st_ok eq_refl).
  - reflexivity.
  - unfold returning. cbn [fst].
    rewrite (get_field_reliable f st_ok eq_refl). cbv zeta.
    replace (fst (get_field f bus_down)) with (@BusTransactionFailure Z).
    + cbn [as_returned]. fold d. unfold st_ok. cbn [bus regs device].
      rewrite set_reg_same. symmetry.
      apply field_of_shifted;
        subst d; destruct f; cbn [field_getter_bound] in Hj;
        cbv -[Z.le Z.lt Z.add Z.sub]; lia.
    + destruct f; reflexivity.
Qed.

Lemma flag_getter_not_surfaced (f : flag_getter) (on_failure : bool) :
  ~ surfaces_failure (returning on_failure (get_flag f)).
Proof.
  set (st_ok :=
         device (set_reg (d_reg (flag_getter_descriptor f))
                   (if on_failure then xff else x00) cleared)).
  destruct (getter_stopped (GFlag f) bus_down [] eq_refl)
    as (t & (_ & _ & _ & Lf) & _).
  eapply (same_result_not_surfaced _ bus_down st_ok).
  - exact Lf.
  - reflexivity.
  - exact (get_flag_log_reliable f st_ok eq_refl).
  - reflexivity.
  - destruct f, on_failure; reflexivity.
Qed.

(** C2, amended.  When the first bus transaction of a get or set operation
    fails, that transaction is the only one the operation issues (it is not
    tried again, and a read-modify-write attempts no write), and no register
    and no byte of the buffer changes.  No operation reports the failure to
    its caller.  The setters and the initialization return nothing.  The
    temperature and rotation reads return the decode of the bytes the buffer
    held before the read, which a read that succeeds returns as well.  The
    field and flag getters return a plain [unsigned char] or [boolean]:
    whatever value of the field's range they hand back after a failed read,
    a read that succeeds hands back the same. *)
Theorem failed_transaction_stops_operation (st : State) (fs : list bool) :
  faults (bus st) = true :: fs ->
  let byte i := Z_of_uchar (nth i (ITG3200Buffer st) x00) in
  (forall s : setter,
      exists t, stopped_at t fs st (snd (run_setter s st))
                /\ is_read t = read_modify_write s)
  /\ (forall g : getter,
         exists t, stopped_at t fs st (after_getter g st) /\ is_read t = true)
  /\ (forall g : sample_getter,
         fst (get_sample g st) = decode_sample (byte 0%nat) (byte 1%nat))
  /\ fst (ITG3200GetRotation st)
     = (decode_sample (byte 0%nat) (byte 1%nat),
        decode_sample (byte 2%nat) (byte 3%nat),
        decode_sample (byte 4%nat) (byte 5%nat))
  /\ (forall s : setter, ~ surfaces_failure (run_setter s))
  /\ ~ surfaces_failure ITG3200Initialize
  /\ (forall g : sample_getter, ~ surfaces_failure (get_sample g))
  /\ ~ surfaces_failure ITG3200GetRotation
  /\ (forall (f : field_getter) (on_failure : Z),
         0 <= on_failure < field_getter_bound f ->
         ~ surfaces_failure (returning on_failure (get_field f)))
  /\ (forall (f : flag_getter) (on_failure : bool),
         ~ surfaces_failure (returning on_failure (get_flag f))).
Proof.
  intros H byte.
  split; [|split; [|split; [|split; [|split; [|split; [|split; [|split; [|split]]]]]]]].
  - intros s. apply setter_stopped. exact H.
  - intros g. apply getter_stopped. exact H.
  - intros g. rewrite sample_value, sample_state.
    rewrite (burst_failing _ _ _ fs) by exact H. reflexivity.
  - rewrite rotation_value. cbv zeta. rewrite rotation_state.
    rewrite (burst_failing _ _ _ fs) by exact H. reflexivity.
  - exact setter_not_surfaced.
  - exact initialize_not_surfaced.
  - exact sample_not_surfaced.
  - exact rotation_not_surfaced.
  - exact field_getter_not_surfaced.
  - exact flag_getter_not_surfaced.
Qed.

(** The theorem at a device whose next transaction fails, the buffer
    holding (0x12, 0x34) from an earlier read, the temperature registers
    something else: the temperature read returns 0x1234 and the registers
    are as they were. *)
Lemma failed_transaction_stops_operation_witness :
  let st :=
    faulty_device (set_reg ITG3200_RA_TEMP_OUT_L x64 cleared) [true]
      [x12; x34; x00; x00; x00; x00] in
  faults (bus st) = [true]
  /\ fst (ITG3200GetTemperature st) = 0x1234
  /\ regs (bus (snd (ITG3200GetTemperature st))) = regs (bus st).
Proof.
  intros st.
  pose proof (failed_transaction_stops_operation st [] eq_refl)
    as (_ & Hg & Hs & _).
  split; [reflexivity|]. split; [exact (Hs Temperature)|].
  destruct (Hg (GSample Temperature)) as (t & (Hr & _) & _). exact Hr.
Defined.
